(** * Coffee-shop drink catalogue: the Flask route handlers of [src/api.py]

    A shallow embedding of [backend/src/api.py].  The five view functions,
    the three error handlers and the [after_request] hook are transcribed
    from the source, statement by statement, as computations that thread the
    drink store and either return or raise.  What the source imports is
    modelled next to them:
    - Flask and werkzeug ([abort], [jsonify], the error-handler lookup,
      the dispatch of a request) as small functions;
    - [json.dumps] and [json.loads] as a printer and a parser;
    - [database/models.py] and [auth/auth.py], which are not part of the
      sources at hand, from the specification: the projections of a drink and
      the checks of the permission guard as functions, storage and token
      verification as interfaces. *)

From Stdlib Require Import ZArith String Ascii List Lia.
From stdpp Require Import base strings list gmap pretty.

Open Scope Z_scope.
Open Scope string_scope.

(** ** Python values that travel through the handlers *)

Set Warnings "-register-all".

(** What [request.get_json()] yields and what [jsonify] accepts.  Numbers are
    the integer literals only; text is ASCII. *)
Inductive json : Type :=
| JNull
| JBool (b : bool)
| JNum (n : Z)
| JStr (s : string)
| JArr (items : list json)
| JObj (members : list (string * json)).

(** Python's [bool(v)], decided by [if title:] and [if recipe:]. *)
Definition truthy (v : json) : bool :=
  match v with
  | JNull => false
  | JBool b => b
  | JNum n => negb (n =? 0)%Z
  | JStr s => negb (String.eqb s "")
  | JArr items => match items with [] => false | _ :: _ => true end
  | JObj members => match members with [] => false | _ :: _ => true end
  end.

(** [d[key]] on the members of a dict. *)
Fixpoint members_lookup (key : string) (members : list (string * json)) : option json :=
  match members with
  | [] => None
  | (k, v) :: rest => if String.eqb k key then Some v else members_lookup key rest
  end.

(** ** Exceptions and the handler monad *)

(** [AuthError] of [auth/auth.py]: the two attributes [auth_error] reads. *)
Record AuthError : Type := mkAuthError {
  error : json;
  status_code : Z
}.

(** The exceptions a view can see: werkzeug's [HTTPException] raised by
    [abort(code)], [AuthError], and every other [Exception] subclass (named
    by its class). *)
Inductive exception : Type :=
| HTTPException (code : Z)
| AuthError_raised (e : AuthError)
| Exception (class : string).

Inductive outcome (A : Type) : Type :=
| Return (a : A)
| Raise (e : exception).
Arguments Return {A} a.
Arguments Raise {A} e.

Definition outcome_bind {A B} (o : outcome A) (k : A -> outcome B) : outcome B :=
  match o with
  | Return a => k a
  | Raise e => Raise e
  end.

(** [[f(x) for x in xs]] with a fallible [f]: stops at the first raise. *)
Fixpoint outcome_map {A B} (f : A -> outcome B) (xs : list A) : outcome (list B) :=
  match xs with
  | [] => Return []
  | x :: rest =>
      outcome_bind (f x) (fun y =>
      outcome_bind (outcome_map f rest) (fun ys => Return (y :: ys)))
  end.

(** [d.get(key, None)] on the members of a dict. *)
Definition field (members : list (string * json)) (key : string) : json :=
  match members_lookup key members with
  | Some v => v
  | None => JNull
  end.

(** [body.get(key, None)]: only a dict has [.get]. *)
Definition dict_get (body : json) (key : string) : outcome json :=
  match body with
  | JObj members => Return (field members key)
  | _ => Raise (Exception "AttributeError")
  end.

(** ** [json.dumps] and [json.loads] *)

Definition quote : ascii := ascii_of_nat 34.
Definition backslash : ascii := ascii_of_nat 92.

Definition hex_digit (n : nat) : ascii :=
  ascii_of_nat (if Nat.ltb n 10 then 48 + n else 87 + n)%nat.

Definition escape_char (c : ascii) : string :=
  let n := nat_of_ascii c in
  if Ascii.eqb c quote then String backslash (String quote "")
  else if Ascii.eqb c backslash then String backslash (String backslash "")
  else if Nat.eqb n 10 then String backslash "n"
  else if Nat.eqb n 13 then String backslash "r"
  else if Nat.eqb n 9 then String backslash "t"
  else if Nat.eqb n 8 then String backslash "b"
  else if Nat.eqb n 12 then String backslash "f"
  else if (Nat.ltb n 32 || Nat.leb 127 n)%bool then
    String backslash ("u00" ++ String (hex_digit (n / 16)) (String (hex_digit (n mod 16)) ""))
  else String c "".

Fixpoint escape (s : string) : string :=
  match s with
  | EmptyString => ""
  | String c rest => escape_char c ++ escape rest
  end.

Definition dumps_str (s : string) : string :=
  String quote (escape s ++ String quote "").

(** [json.dumps(v)] with Python's default separators. *)
Fixpoint json_dumps (v : json) : string :=
  match v with
  | JNull => "null"
  | JBool true => "true"
  | JBool false => "false"
  | JNum n => pretty n
  | JStr s => dumps_str s
  | JArr items =>
      "[" ++ (fix go (l : list json) : string :=
                match l with
                | [] => ""
                | x :: rest =>
                    match rest with
                    | [] => json_dumps x
                    | _ :: _ => json_dumps x ++ ", " ++ go rest
                    end
                end) items ++ "]"
  | JObj members =>
      "{" ++ (fix go (l : list (string * json)) : string :=
                match l with
                | [] => ""
                | (k, x) :: rest =>
                    match rest with
                    | [] => dumps_str k ++ ": " ++ json_dumps x
                    | _ :: _ => dumps_str k ++ ": " ++ json_dumps x ++ ", " ++ go rest
                    end
                end) members ++ "}"
  end.

Definition is_space (c : ascii) : bool :=
  let n := nat_of_ascii c in
  (Nat.eqb n 32 || Nat.eqb n 9 || Nat.eqb n 10 || Nat.eqb n 13)%bool.

Fixpoint skip_ws (s : string) : string :=
  match s with
  | EmptyString => s
  | String c rest => if is_space c then skip_ws rest else s
  end.

Fixpoint strip_prefix (p s : string) : option string :=
  match p, s with
  | EmptyString, _ => Some s
  | String a p', String b s' => if Ascii.eqb a b then strip_prefix p' s' else None
  | String _ _, EmptyString => None
  end.

Definition digit_value (c : ascii) : option Z :=
  let n := nat_of_ascii c in
  if (Nat.leb 48 n && Nat.leb n 57)%bool then Some (Z.of_nat (n - 48)) else None.

Definition hex_value (c : ascii) : option nat :=
  let n := nat_of_ascii c in
  if (Nat.leb 48 n && Nat.leb n 57)%bool then Some (n - 48)%nat
  else if (Nat.leb 97 n && Nat.leb n 102)%bool then Some (n - 87)%nat
  else if (Nat.leb 65 n && Nat.leb n 70)%bool then Some (n - 55)%nat
  else None.

Fixpoint loads_digits (acc : Z) (s : string) : Z * string :=
  match s with
  | EmptyString => (acc, s)
  | String c rest =>
      match digit_value c with
      | Some d => loads_digits (10 * acc + d) rest
      | None => (acc, s)
      end
  end.

(** The literal starts with a zero that another digit follows. *)
Definition leading_zero (t : string) : bool :=
  match t with
  | String "0" (String c _) =>
      match digit_value c with
      | Some _ => true
      | None => false
      end
  | _ => false
  end.

(** An integer literal, without a leading zero; a fraction or an exponent
    after it is not read. *)
Definition loads_int (s : string) : option (Z * string) :=
  let unsigned (t : string) :=
    match t with
    | String c rest =>
        match digit_value c with
        | Some d => if leading_zero t then None else Some (loads_digits d rest)
        | None => None
        end
    | EmptyString => None
    end in
  let result :=
    match s with
    | String "-" rest =>
        match unsigned rest with
        | Some (n, r) => Some (- n, r)
        | None => None
        end
    | _ => unsigned s
    end in
  match result with
  | Some (n, String c r) =>
      if (Ascii.eqb c "." || Ascii.eqb c "e" || Ascii.eqb c "E")%bool then None
      else Some (n, String c r)
  | other => other
  end.

Definition unescape (e : ascii) : option ascii :=
  if Ascii.eqb e quote then Some quote
  else if Ascii.eqb e backslash then Some backslash
  else if Ascii.eqb e "/" then Some "/"%char
  else if Ascii.eqb e "n" then Some (ascii_of_nat 10)
  else if Ascii.eqb e "r" then Some (ascii_of_nat 13)
  else if Ascii.eqb e "t" then Some (ascii_of_nat 9)
  else if Ascii.eqb e "b" then Some (ascii_of_nat 8)
  else if Ascii.eqb e "f" then Some (ascii_of_nat 12)
  else None.

(** The text of a string literal, read from just after its opening quote. *)
Fixpoint loads_str (s : string) : option (string * string) :=
  match s with
  | EmptyString => None
  | String c rest =>
      if Ascii.eqb c quote then Some ("", rest)
      else if Ascii.eqb c backslash then
        match rest with
        | String "u" (String "0" (String "0" (String h (String l rest')))) =>
            match hex_value h, hex_value l, loads_str rest' with
            | Some a, Some b, Some (t, r) => Some (String (ascii_of_nat (16 * a + b)) t, r)
            | _, _, _ => None
            end
        | String e rest' =>
            match unescape e, loads_str rest' with
            | Some c', Some (t, r) => Some (String c' t, r)
            | _, _ => None
            end
        | EmptyString => None
        end
      else
        match loads_str rest with
        | Some (t, r) => Some (String c t, r)
        | None => None
        end
  end.

(** The elements of an array after the first, up to the closing bracket. *)
Fixpoint loads_items (value : string -> option (json * string)) (n : nat) (s : string)
  : option (list json * string) :=
  match n with
  | O => None
  | S n' =>
      match skip_ws s with
      | String "]" rest => Some ([], rest)
      | String "," rest =>
          match value rest with
          | Some (v, r) =>
              match loads_items value n' r with
              | Some (vs, r') => Some (v :: vs, r')
              | None => None
              end
          | None => None
          end
      | _ => None
      end
  end.

Definition loads_member (value : string -> option (json * string)) (s : string)
  : option ((string * json) * string) :=
  match skip_ws s with
  | String c rest =>
      if Ascii.eqb c quote then
        match loads_str rest with
        | Some (k, r) =>
            match skip_ws r with
            | String ":" r' =>
                match value r' with
                | Some (v, r'') => Some ((k, v), r'')
                | None => None
                end
            | _ => None
            end
        | None => None
        end
      else None
  | EmptyString => None
  end.

Fixpoint loads_members (value : string -> option (json * string)) (n : nat) (s : string)
  : option (list (string * json) * string) :=
  match n with
  | O => None
  | S n' =>
      match skip_ws s with
      | String "}" rest => Some ([], rest)
      | String "," rest =>
          match loads_member value rest with
          | Some (m, r) =>
              match loads_members value n' r with
              | Some (ms, r') => Some (m :: ms, r')
              | None => None
              end
          | None => None
          end
      | _ => None
      end
  end.

Fixpoint loads_value (fuel : nat) (s : string) : option (json * string) :=
  match fuel with
  | O => None
  | S fuel' =>
      let value := loads_value fuel' in
      let width := S (String.length s) in
      match skip_ws s with
      | EmptyString => None
      | String c rest =>
          if Ascii.eqb c "[" then
            match skip_ws rest with
            | String "]" r => Some (JArr [], r)
            | _ =>
                match value rest with
                | Some (v, r) =>
                    match loads_items value width r with
                    | Some (vs, r') => Some (JArr (v :: vs), r')
                    | None => None
                    end
                | None => None
                end
            end
          else if Ascii.eqb c "{" then
            match skip_ws rest with
            | String "}" r => Some (JObj [], r)
            | _ =>
                match loads_member value rest with
                | Some (m, r) =>
                    match loads_members value width r with
                    | Some (ms, r') => Some (JObj (m :: ms), r')
                    | None => None
                    end
                | None => None
                end
            end
          else if Ascii.eqb c quote then
            match loads_str rest with
            | Some (t, r) => Some (JStr t, r)
            | None => None
            end
          else
            match strip_prefix "null" (String c rest),
                  strip_prefix "true" (String c rest),
                  strip_prefix "false" (String c rest) with
            | Some r, _, _ => Some (JNull, r)
            | _, Some r, _ => Some (JBool true, r)
            | _, _, Some r => Some (JBool false, r)
            | None, None, None =>
                match loads_int (String c rest) with
                | Some (n, r) => Some (JNum n, r)
                | None => None
                end
            end
      end
  end.

(** [json.loads(text)]: the whole text must be one value. *)
Definition json_loads (text : string) : outcome json :=
  match loads_value (S (String.length text)) text with
  | Some (v, rest) =>
      match skip_ws rest with
      | EmptyString => Return v
      | String _ _ => Raise (Exception "JSONDecodeError")
      end
  | None => Raise (Exception "JSONDecodeError")
  end.

(** ** Text helpers: [str.split] and [str.strip] *)

(** [s.split(sep)] for a one-character separator. *)
Fixpoint split (sep : ascii) (s : string) : list string :=
  match s with
  | EmptyString => [EmptyString]
  | String c rest =>
      if Ascii.eqb c sep then EmptyString :: split sep rest
      else match split sep rest with
           | [] => [String c EmptyString]
           | w :: ws => String c w :: ws
           end
  end.

Fixpoint rstrip (s : string) : string :=
  match s with
  | EmptyString => EmptyString
  | String c rest =>
      match rstrip rest with
      | EmptyString => if is_space c then EmptyString else String c EmptyString
      | kept => String c kept
      end
  end.

Definition strip (s : string) : string := rstrip (skip_ws s).

(** The members of a comma-separated header value, blanks around them
    dropped (the list syntax of HTTP header fields). *)
Definition header_list (value : string) : list string :=
  map strip (split "," value).

(** ** The drink rows ([database/models.py]) *)

(** A [Drink] object: [id] is [None] until the row is inserted; [title] is
    whatever the handler assigned; [recipe] is the serialized text. *)
Record Drink : Type := mkDrink {
  Drink_id : option Z;
  Drink_title : json;
  Drink_recipe : string
}.

Definition set_title (drink : Drink) (title : json) : Drink :=
  {| Drink_id := Drink_id drink; Drink_title := title; Drink_recipe := Drink_recipe drink |}.

Definition set_recipe (drink : Drink) (recipe : string) : Drink :=
  {| Drink_id := Drink_id drink; Drink_title := Drink_title drink; Drink_recipe := recipe |}.

Definition id_json (drink : Drink) : json :=
  match Drink_id drink with
  | Some k => JNum k
  | None => JNull
  end.

(** Modelled from the spec: [Drink.long] of [database/models.py], the long
    projection [{id, title, recipe: [{name, color, parts}]}] with the stored
    text deserialized on read. *)
Definition Drink_long (drink : Drink) : outcome json :=
  outcome_bind (json_loads (Drink_recipe drink)) (fun recipe =>
  Return (JObj [("id", id_json drink); ("title", Drink_title drink); ("recipe", recipe)])).

Definition short_entry (r : json) : outcome json :=
  match r with
  | JObj members =>
      match members_lookup "color" members, members_lookup "parts" members with
      | Some color, Some parts => Return (JObj [("color", color); ("parts", parts)])
      | _, _ => Raise (Exception "KeyError")
      end
  | _ => Raise (Exception "TypeError")
  end.

(** Modelled from the spec: [Drink.short] of [database/models.py], the short
    projection [{id, title, recipe: [{color, parts}]}], ingredient names
    omitted. *)
Definition Drink_short (drink : Drink) : outcome json :=
  outcome_bind (json_loads (Drink_recipe drink)) (fun recipe =>
  match recipe with
  | JArr items =>
      outcome_bind (outcome_map short_entry items) (fun short_recipe =>
      Return (JObj [("id", id_json drink); ("title", Drink_title drink);
                    ("recipe", JArr short_recipe)]))
  | _ => Raise (Exception "TypeError")
  end).

(** Modelled from the spec: the persistence side of [Drink] in
    [database/models.py] ([Drink.query.all], [Drink.query.get] and
    [one_or_none] on the id, [insert], [update], [delete]), taken as an
    interface.  Reads may raise; a write that raises leaves the store as it
    was (each write is one transaction, rolled back on failure); a committed
    update or delete is what a later read by id finds. *)
Class DrinkRepository : Type := {
  store : Type;
  Drink_query_all : store -> outcome (list Drink);
  Drink_query_get : Z -> store -> outcome (option Drink);
  Drink_insert : Drink -> store -> outcome Drink * store;
  Drink_update : Drink -> store -> outcome unit * store;
  Drink_delete : Drink -> store -> outcome unit * store;
  query_get_id : forall k st d,
    Drink_query_get k st = Return (Some d) -> Drink_id d = Some k;
  insert_rollback : forall d st e st',
    Drink_insert d st = (Raise e, st') -> st' = st;
  update_rollback : forall d st e st',
    Drink_update d st = (Raise e, st') -> st' = st;
  delete_rollback : forall d st e st',
    Drink_delete d st = (Raise e, st') -> st' = st;
  update_commit : forall d k st st',
    Drink_id d = Some k -> Drink_update d st = (Return tt, st') ->
    Drink_query_get k st' = Return (Some d);
  delete_commit : forall d k st st',
    Drink_id d = Some k -> Drink_delete d st = (Return tt, st') ->
    Drink_query_get k st' = Return None
}.

(** ** Bearer tokens ([auth/auth.py]) *)

Inductive AuthFailure : Type :=
| AuthHeaderMalformed
| InvalidSignature
| TokenExpired
| InvalidClaims
| PermissionsClaimMissing
| Unauthorized.

Definition failure_code (k : AuthFailure) : string :=
  match k with
  | AuthHeaderMalformed => "invalid_header"
  | InvalidSignature => "invalid_signature"
  | TokenExpired => "token_expired"
  | InvalidClaims => "invalid_claims"
  | PermissionsClaimMissing => "permissions_missing"
  | Unauthorized => "unauthorized"
  end.

Definition failure_description (k : AuthFailure) : string :=
  match k with
  | AuthHeaderMalformed => "Authorization header must be of the form Bearer token."
  | InvalidSignature => "Signature could not be verified."
  | TokenExpired => "Token expired."
  | InvalidClaims => "Issuer or audience missing or wrong."
  | PermissionsClaimMissing => "Permissions not included in token."
  | Unauthorized => "Permission not found."
  end.

(** Modelled from the spec: the [AuthError] that [auth/auth.py] raises for
    each kind of auth failure, a [{code, description}] payload with status
    401. *)
Definition AuthError_of (k : AuthFailure) : AuthError :=
  {| error := JObj [("code", JStr (failure_code k));
                    ("description", JStr (failure_description k))];
     status_code := 401 |}.

Definition auth_failure (k : AuthFailure) : exception :=
  AuthError_raised (AuthError_of k).

(** The verified claims set. *)
Record Claims : Type := mkClaims {
  permissions : option (list string);
  iss : string;
  aud : string;
  sub : string;
  exp : Z
}.

(** Modelled from the spec: signature and expiry validation against the
    signing authority's key material (the Token Verifier past the header
    check), taken as an interface. *)
Class TokenAuthority : Type := {
  verify_decode_jwt : string -> AuthFailure + Claims
}.

(** ** The Flask request and response *)

Inductive Route : Type :=
| GET_drinks
| GET_drinks_detail
| POST_drinks
| PATCH_drinks (drink_id : Z)
| DELETE_drinks (drink_id : Z)
| Unrouted.

(** [get_json] is what [request.get_json()] does for this request: the parsed
    body, or the exception it raises. *)
Record Request : Type := mkRequest {
  route : Route;
  authorization : option string;
  get_json : outcome json
}.

Inductive Payload : Type :=
| Json (j : json)
| Page (description : string).

Record Response : Type := mkResponse {
  status : Z;
  data : Payload;
  headers : gmap string string
}.

(** [jsonify(result), code] *)
Definition jsonify (result : json) (code : Z) : Response :=
  {| status := code; data := Json result;
     headers := {["Content-Type" := "application/json"]} |}.

(** The 46 blanks that begin the continuation line of a string literal
    broken with a backslash inside the quotes in [after_request]: they are
    part of the string. *)
Definition continuation : string :=
  string_of_list_ascii (repeat " "%char 46).

(** The [after_request] hook of [api.py].  (The hook that [CORS(app)]
    installs is flask_cors's and is not part of this model.) *)
Definition after_request (response : Response) : Response :=
  let header := headers response in
  let header := <["Access-Control-Allow-Origin" := "*"]> header in
  let header := <["Access-Control-Allow-Headers" :=
                    "Authorization, Content-Type, " ++ continuation ++ "true"]> header in
  let header := <["Access-Control-Allow-Methods" :=
                    "POST,GET,PUT,DELETE,PATCH," ++ continuation ++ "OPTIONS"]> header in
  {| status := status response; data := data response; headers := header |}.

(** *** Error handlers *)

Definition unprocessable : Response :=
  jsonify (JObj [("success", JBool false); ("error", JNum 422);
                 ("message", JStr "unprocessable")]) 422.

Definition not_found : Response :=
  jsonify (JObj [("success", JBool false); ("error", JNum 404);
                 ("message", JStr "resource not found")]) 404.

Definition auth_error (e : AuthError) : Response :=
  jsonify (error e) (status_code e).

(** What Flask answers for an [HTTPException] with no registered handler:
    werkzeug's own page for that code. *)
Definition default_page (code : Z) : Response :=
  {| status := code; data := Page "werkzeug default error page";
     headers := {["Content-Type" := "text/html; charset=utf-8"]} |}.

(** Flask's [handle_user_exception]: a registered handler for the code or the
    class, werkzeug's page for other HTTP exceptions, a 500 for the rest. *)
Definition handle_user_exception (e : exception) : Response :=
  match e with
  | HTTPException code =>
      if (code =? 422)%Z then unprocessable
      else if (code =? 404)%Z then not_found
      else default_page code
  | AuthError_raised err => auth_error err
  | Exception _ => default_page 500
  end.

(** Flask's [finalize_request] on what the view returned or raised. *)
Definition finalize_request (result : outcome Response) : Response :=
  after_request
    match result with
    | Return response => response
    | Raise e => handle_user_exception e
    end.

(** The shapes a response can take. *)
Definition response_shape (response : Response) : Prop :=
  status response = 200
  \/ response = after_request unprocessable
  \/ response = after_request not_found
  \/ response = after_request (default_page 401)
  \/ exists k, response = after_request (auth_error (AuthError_of k)).

(** The CORS headers of a response, as the lists they stand for. *)
Definition allow_origin (response : Response) : option string :=
  headers response !! "Access-Control-Allow-Origin".

Definition allow_methods (response : Response) : option (list string) :=
  header_list <$> headers response !! "Access-Control-Allow-Methods".

Definition allow_headers (response : Response) : option (list string) :=
  header_list <$> headers response !! "Access-Control-Allow-Headers".

(** ** The application *)

Section App.
Context {repository : DrinkRepository} {authority : TokenAuthority}.

(** A computation of a view: it reads and writes the drink store and
    returns or raises. *)
Definition M (A : Type) : Type := store -> outcome A * store.

Definition ret {A} (a : A) : M A := fun st => (Return a, st).

Definition raise {A} (e : exception) : M A := fun st => (Raise e, st).

Definition bind {A B} (m : M A) (k : A -> M B) : M B :=
  fun st =>
    match m st with
    | (Return a, st') => k a st'
    | (Raise e, st') => (Raise e, st')
    end.

(** A step that does not touch the store. *)
Definition lift {A} (o : outcome A) : M A := fun st => (o, st).

(** A query. *)
Definition read {A} (q : store -> outcome A) : M A := fun st => (q st, st).

(** [try: body except ...: handler]; the store keeps what the body did
    before it raised. *)
Definition try_except {A} (body : M A) (handler : exception -> M A) : M A :=
  fun st =>
    match body st with
    | (Return a, st') => (Return a, st')
    | (Raise e, st') => handler e st'
    end.

(** [except AuthError: h], then the clauses after it. *)
Definition except_AuthError {A} (h : M A) (rest : exception -> M A) : exception -> M A :=
  fun e =>
    match e with
    | AuthError_raised _ => h
    | _ => rest e
    end.

(** [except(Exception): h]: every exception class derives from it,
    werkzeug's [HTTPException] included. *)
Definition except_Exception {A} (h : M A) : exception -> M A :=
  fun _ => h.

(** [abort(code)] *)
Definition abort {A} (code : Z) : M A := raise (HTTPException code).

End App.

Notation "'let!' x ':=' m 'in' k" := (bind m (fun x => k))
  (at level 10, x binder, m at level 100, k at level 200).

Section Views.
Context {repository : DrinkRepository} {authority : TokenAuthority}.

(** *** The permission guard *)

(** Modelled from the spec: the header check of the Token Verifier in
    [auth/auth.py].  The header must be [Bearer <token>], exactly two
    parts separated by one blank. *)
Definition get_token_auth_header (req : Request) : outcome string :=
  match authorization req with
  | None => Raise (auth_failure AuthHeaderMalformed)
  | Some auth =>
      match split " " auth with
      | [scheme; token] =>
          if String.eqb scheme "Bearer" then Return token
          else Raise (auth_failure AuthHeaderMalformed)
      | _ => Raise (auth_failure AuthHeaderMalformed)
      end
  end.

(** Modelled from the spec: the permission check of the Permission Guard
    in [auth/auth.py]. *)
Definition check_permissions (permission : string) (payload : Claims) : outcome unit :=
  match permissions payload with
  | None => Raise (auth_failure PermissionsClaimMissing)
  | Some granted =>
      if existsb (String.eqb permission) granted then Return tt
      else Raise (auth_failure Unauthorized)
  end.

(** The three checks of the guard in order: the claims, or the auth
    failure that stops the request. *)
Definition authenticate (permission : string) (req : Request) : outcome Claims :=
  outcome_bind (get_token_auth_header req) (fun token =>
  match verify_decode_jwt token with
  | inl failure => Raise (auth_failure failure)
  | inr payload =>
      outcome_bind (check_permissions permission payload) (fun _ =>
      Return payload)
  end).

(** Modelled from the spec: the decorator [requires_auth(permission)] of
    [auth/auth.py].  It runs the checks before the wrapped view and calls
    the view with the claims only when they pass; what the view raises is
    not caught here. *)
Definition requires_auth (permission : string) (f : Claims -> M Response)
    (req : Request) : M Response :=
  let! payload := lift (authenticate permission req) in
  f payload.

(** What the two [except] clauses of a guarded view make of its [try]
    block. *)
Definition caught (ran : outcome Response * store) : outcome Response * store :=
  match ran with
  | (Return response, st') => (Return response, st')
  | (Raise (AuthError_raised _), st') => (Raise (HTTPException 401), st')
  | (Raise _, st') => (Raise (HTTPException 422), st')
  end.

(** *** GET /drinks *)

Definition get_drinks_try : M Response :=
  let! rows := read Drink_query_all in
  let! drinks := lift (outcome_map Drink_short rows) in
  let! _ := (if (Z.of_nat (length drinks) =? 0)%Z then abort 404 else ret tt) in
  let result := JObj [("success", JBool true); ("drinks", JArr drinks)] in
  ret (jsonify result 200).

Definition get_drinks (req : Request) : M Response :=
  try_except get_drinks_try
    (except_Exception (abort 422)).

(** *** GET /drinks-detail *)

Definition get_drink_details_try : M Response :=
  let! rows := read Drink_query_all in
  let! drinks := lift (outcome_map Drink_long rows) in
  let! _ := (if (Z.of_nat (length drinks) =? 0)%Z then abort 404 else ret tt) in
  let result := JObj [("success", JBool true); ("drinks", JArr drinks)] in
  ret (jsonify result 200).

Definition get_drink_details (req : Request) : M Response :=
  requires_auth "get:drinks-detail" (fun payload =>
    try_except get_drink_details_try
      (except_AuthError (abort 401)
      (except_Exception (abort 422)))) req.

(** *** POST /drinks *)

Definition post_drinks_try (req : Request) : M Response :=
  let! body := lift (get_json req) in
  let! title := lift (dict_get body "title") in
  let! recipe := lift (dict_get body "recipe") in
  let drink := mkDrink None title (json_dumps recipe) in
  let! drink := Drink_insert drink in
  let! long := lift (Drink_long drink) in
  let result := JObj [("success", JBool true); ("drinks", long)] in
  ret (jsonify result 200).

Definition post_drinks (req : Request) : M Response :=
  requires_auth "post:drinks" (fun payload =>
    try_except (post_drinks_try req)
      (except_AuthError (abort 401)
      (except_Exception (abort 422)))) req.

(** *** PATCH /drinks/<int:drink_id> *)

Definition update_drink_try (req : Request) (drink_id : Z) : M Response :=
  let! body := lift (get_json req) in
  let! title := lift (dict_get body "title") in
  let! recipe := lift (dict_get body "recipe") in
  let! found := read (Drink_query_get drink_id) in
  match found with
  | None => abort 404
  | Some drink =>
      let drink := if truthy title then set_title drink title else drink in
      let drink := if truthy recipe then set_recipe drink (json_dumps recipe) else drink in
      let! _ := Drink_update drink in
      let! rows := read Drink_query_all in
      let! drinks := lift (outcome_map Drink_long rows) in
      let result := JObj [("success", JBool true); ("drinks", JArr drinks)] in
      ret (jsonify result 200)
  end.

Definition update_drink (req : Request) (drink_id : Z) : M Response :=
  requires_auth "patch:drinks" (fun payload =>
    try_except (update_drink_try req drink_id)
      (except_AuthError (abort 401)
      (except_Exception (abort 422)))) req.

(** *** DELETE /drinks/<int:drink_id> *)

Definition delete_drinks_try (drink_id : Z) : M Response :=
  let! found := read (Drink_query_get drink_id) in
  match found with
  | None => abort 404
  | Some drink =>
      let! _ := Drink_delete drink in
      let result := JObj [("success", JBool true); ("delete", JNum drink_id)] in
      ret (jsonify result 200)
  end.

Definition delete_drinks (req : Request) (drink_id : Z) : M Response :=
  requires_auth "delete:drinks" (fun payload =>
    try_except (delete_drinks_try drink_id)
      (except_AuthError (abort 401)
      (except_Exception (abort 422)))) req.

(** *** Dispatch *)

(** The URL map: the view bound to the matched rule; werkzeug raises
    [NotFound] when no rule matches. *)
Definition view (req : Request) : M Response :=
  match route req with
  | GET_drinks => get_drinks req
  | GET_drinks_detail => get_drink_details req
  | POST_drinks => post_drinks req
  | PATCH_drinks drink_id => update_drink req drink_id
  | DELETE_drinks drink_id => delete_drinks req drink_id
  | Unrouted => abort 404
  end.

(** The [try] block of the view of a route, for the five routes. *)
Definition try_block (req : Request) : option (M Response) :=
  match route req with
  | GET_drinks => Some get_drinks_try
  | GET_drinks_detail => Some get_drink_details_try
  | POST_drinks => Some (post_drinks_try req)
  | PATCH_drinks drink_id => Some (update_drink_try req drink_id)
  | DELETE_drinks drink_id => Some (delete_drinks_try drink_id)
  | Unrouted => None
  end.

(** The permission a route is guarded by, if any. *)
Definition required_permission (r : Route) : option string :=
  match r with
  | GET_drinks => None
  | GET_drinks_detail => Some "get:drinks-detail"
  | POST_drinks => Some "post:drinks"
  | PATCH_drinks _ => Some "patch:drinks"
  | DELETE_drinks _ => Some "delete:drinks"
  | Unrouted => None
  end.

(** The request passes the guard of its route. *)
Definition passes_guard (req : Request) : bool :=
  match required_permission (route req) with
  | None => true
  | Some permission =>
      match authenticate permission req with
      | Return _ => true
      | Raise _ => false
      end
  end.

(** The drink [update_drink] hands to [drink.update()]: the row it found
    with the two conditional assignments applied. *)
Definition patched (drink : Drink) (members : list (string * json)) : Drink :=
  let title := field members "title" in
  let recipe := field members "recipe" in
  let drink := if truthy title then set_title drink title else drink in
  let drink := if truthy recipe then set_recipe drink (json_dumps recipe) else drink in
  drink.

(** Flask's [full_dispatch_request]: run the view, turn what it raised
    into a response through the error handlers, then run the
    [after_request] hook on the response. *)
Definition full_dispatch_request (req : Request) (st : store) : Response * store :=
  let (result, st') := view req st in
  (finalize_request result, st').

End Views.

(** ** A catalogue held in memory *)

(** Modelled from the spec: the drink table of [database/models.py] as the
    list of its rows with the next id to hand out.  Ids are assigned by the
    store on creation; a title must be a string that no other row carries;
    a rejected write raises and changes nothing. *)
Record Catalog : Type := mkCatalog {
  rows : list Drink;
  next_id : Z
}.

Definition has_id (k : Z) (row : Drink) : bool :=
  match Drink_id row with
  | Some k' => (k' =? k)%Z
  | None => false
  end.

Definition title_is (s : string) (row : Drink) : bool :=
  match Drink_title row with
  | JStr s' => String.eqb s s'
  | _ => false
  end.

(** The uniqueness constraint on [title], checked against the other rows. *)
Definition title_accepted (title : json) (others : list Drink) : bool :=
  match title with
  | JStr s => negb (existsb (title_is s) others)
  | _ => false
  end.

Definition catalog_all (c : Catalog) : outcome (list Drink) :=
  Return (rows c).

Definition catalog_get (k : Z) (c : Catalog) : outcome (option Drink) :=
  Return (List.find (has_id k) (rows c)).

Definition catalog_insert (drink : Drink) (c : Catalog) : outcome Drink * Catalog :=
  if title_accepted (Drink_title drink) (rows c) then
    let row := {| Drink_id := Some (next_id c); Drink_title := Drink_title drink;
                  Drink_recipe := Drink_recipe drink |} in
    (Return row, {| rows := rows c ++ [row]; next_id := next_id c + 1 |})
  else (Raise (Exception "StorageError"), c).

Definition catalog_update (drink : Drink) (c : Catalog) : outcome unit * Catalog :=
  match Drink_id drink with
  | None => (Raise (Exception "NotFound"), c)
  | Some k =>
      if existsb (has_id k) (rows c) then
        if title_accepted (Drink_title drink)
             (List.filter (fun row => negb (has_id k row)) (rows c)) then
          (Return tt,
           {| rows := map (fun row => if has_id k row then drink else row) (rows c);
              next_id := next_id c |})
        else (Raise (Exception "StorageError"), c)
      else (Raise (Exception "NotFound"), c)
  end.

Definition catalog_delete (drink : Drink) (c : Catalog) : outcome unit * Catalog :=
  match Drink_id drink with
  | None => (Raise (Exception "NotFound"), c)
  | Some k =>
      if existsb (has_id k) (rows c) then
        (Return tt,
         {| rows := List.filter (fun row => negb (has_id k row)) (rows c);
            next_id := next_id c |})
      else (Raise (Exception "NotFound"), c)
  end.

Definition in_memory : DrinkRepository.
Proof.
  refine {| store := Catalog;
            Drink_query_all := catalog_all;
            Drink_query_get := catalog_get;
            Drink_insert := catalog_insert;
            Drink_update := catalog_update;
            Drink_delete := catalog_delete |}.
  - intros k st d H. unfold catalog_get in H. injection H as H.
    apply find_some in H. destruct H as [_ H]. unfold has_id in H.
    destruct (Drink_id d) as [k'|]; [|discriminate].
    apply Z.eqb_eq in H. congruence.
  - intros d st e st'. unfold catalog_insert.
    destruct (title_accepted _ _); congruence.
  - intros d st e st'. unfold catalog_update.
    destruct (Drink_id d); [|congruence].
    destruct (existsb _ _); [|congruence].
    destruct (title_accepted _ _); congruence.
  - intros d st e st'. unfold catalog_delete.
    destruct (Drink_id d); [|congruence].
    destruct (existsb _ _); congruence.
  - intros d k st st' Hid. unfold catalog_update, catalog_get. rewrite Hid.
    destruct (existsb (has_id k) (rows st)) eqn:Hex; [|congruence].
    destruct (title_accepted _ _); [|congruence].
    intros H. injection H as <-. simpl. f_equal.
    assert (Hd : has_id k d = true) by (unfold has_id; rewrite Hid; apply Z.eqb_refl).
    induction (rows st) as [|row l IH]; simpl in *; [discriminate|].
    destruct (has_id k row) eqn:Hrow.
    + rewrite Hd. reflexivity.
    + rewrite Hrow. apply IH. exact Hex.
  - intros d k st st' Hid. unfold catalog_delete, catalog_get. rewrite Hid.
    destruct (existsb (has_id k) (rows st)); [|congruence].
    intros H. injection H as <-. simpl. f_equal.
    induction (rows st) as [|row l IH]; simpl; [reflexivity|].
    destruct (has_id k row) eqn:Hrow; simpl; [exact IH|].
    rewrite Hrow. exact IH.
Defined.

(** ** A token authority for the examples *)

Definition staff (granted : option (list string)) : Claims :=
  {| permissions := granted; iss := "https://issuer.example/"; aud := "drinks";
     sub := "staff"; exp := 0 |}.

(** Three tokens it vouches for (a manager with every permission, a barista
    who may only read the details, a token minted without a permissions
    claim), one it knows to be expired; any other token fails verification. *)
Definition manager_claims : Claims :=
  staff (Some ["get:drinks-detail"; "post:drinks"; "patch:drinks"; "delete:drinks"]).

Definition example_authority : TokenAuthority :=
  {| verify_decode_jwt token :=
       if String.eqb token "manager" then inr manager_claims
       else if String.eqb token "barista" then inr (staff (Some ["get:drinks-detail"]))
       else if String.eqb token "unscoped" then inr (staff None)
       else if String.eqb token "expired" then inl TokenExpired
       else inl InvalidSignature |}.

(** The application on the in-memory catalogue. *)
Definition serve (req : Request) (c : Catalog) : Response * Catalog :=
  @full_dispatch_request in_memory example_authority req c.

Definition empty_catalog : Catalog := {| rows := []; next_id := 1 |}.

Definition water : json :=
  JArr [JObj [("name", JStr "Water"); ("color", JStr "blue"); ("parts", JNum 1)]].

Definition milk : json :=
  JArr [JObj [("name", JStr "Milk"); ("color", JStr "white"); ("parts", JNum 2)]].

Definition water_row : Drink := mkDrink (Some 1) (JStr "Water") (json_dumps water).

Definition one_drink : Catalog := {| rows := [water_row]; next_id := 2 |}.

Definition manager : option string := Some "Bearer manager".

Definition anonymous (r : Route) : Request :=
  {| route := r; authorization := None; get_json := Raise (HTTPException 400) |}.

Definition as_manager (r : Route) (body : outcome json) : Request :=
  {| route := r; authorization := manager; get_json := body |}.

Definition post_as_manager (members : list (string * json)) : Request :=
  as_manager POST_drinks (Return (JObj members)).

Definition patch_as_manager (k : Z) (members : list (string * json)) : Request :=
  as_manager (PATCH_drinks k) (Return (JObj members)).

(** * Properties *)

Create HintDb handler discriminated.
#[global] Hint Unfold bind lift read ret raise abort try_except
  except_AuthError except_Exception : handler.

Ltac run := autounfold with handler.

Section Properties.
Context {repository : DrinkRepository} {authority : TokenAuthority}.

(** ** How the views run *)

Lemma dispatch_view (req : Request) (st : store) :
  full_dispatch_request req st
  = (finalize_request (fst (view req st)), snd (view req st)).
Proof. unfold full_dispatch_request. destruct (view req st); reflexivity. Qed.

(** The guard raises nothing but the auth failures of the taxonomy. *)
Lemma authenticate_raises (permission : string) (req : Request) (e : exception) :
  authenticate permission req = Raise e -> exists k, e = auth_failure k.
Proof.
  unfold authenticate, get_token_auth_header, check_permissions, outcome_bind.
  intros H.
  destruct (authorization req) as [auth|]; [|inversion H; eauto].
  destruct (split " " auth) as [|scheme [|token [|? ?]]]; try (inversion H; eauto; fail).
  destruct (String.eqb scheme "Bearer"); [|inversion H; eauto].
  destruct (verify_decode_jwt token) as [failure|payload]; [inversion H; eauto|].
  destruct (permissions payload) as [granted|]; [|inversion H; eauto].
  destruct (existsb _ granted); inversion H; eauto.
Qed.

Lemma guard_rejects (permission : string) (f : Claims -> M Response)
    (req : Request) (st : store) (e : exception) :
  authenticate permission req = Raise e ->
  requires_auth permission f req st = (Raise e, st).
Proof. intros H. unfold requires_auth. run. rewrite H. reflexivity. Qed.

Lemma guard_lets_through (permission : string) (f : Claims -> M Response)
    (req : Request) (st : store) (payload : Claims) :
  authenticate permission req = Return payload ->
  requires_auth permission f req st = f payload st.
Proof. intros H. unfold requires_auth. run. rewrite H. reflexivity. Qed.

Lemma try_except_caught (body : M Response) (st : store) :
  try_except body (except_AuthError (abort 401) (except_Exception (abort 422))) st
  = caught (body st).
Proof. run. unfold caught. destruct (body st) as [[r|[c|a|n]] st']; reflexivity. Qed.

(** The view of each of the five routes, in terms of its [try] block. *)
Lemma view_unguarded (req : Request) (st : store) :
  route req = GET_drinks ->
  view req st =
    match get_drinks_try st with
    | (Return response, st') => (Return response, st')
    | (Raise _, st') => (Raise (HTTPException 422), st')
    end.
Proof. intros H. unfold view, get_drinks. rewrite H. run. reflexivity. Qed.

Lemma view_guarded (req : Request) (st : store) (permission : string)
    (body : M Response) :
  required_permission (route req) = Some permission ->
  try_block req = Some body ->
  view req st =
    match authenticate permission req with
    | Raise e => (Raise e, st)
    | Return _ => caught (body st)
    end.
Proof.
  unfold view, required_permission, try_block.
  destruct (route req); intros Hp Hb; try discriminate;
    injection Hp as <-; injection Hb as <-;
    unfold get_drink_details, post_drinks, update_drink, delete_drinks;
    (destruct (authenticate _ req) as [payload|e] eqn:Hauth;
     [ erewrite guard_lets_through by exact Hauth; apply try_except_caught
     | erewrite guard_rejects by exact Hauth; reflexivity ]).
Qed.

(** The listing part shared by the two GET views never writes. *)
Lemma get_drinks_try_reads (st : store) : snd (get_drinks_try st) = st.
Proof.
  unfold get_drinks_try. run.
  destruct (Drink_query_all st); [|reflexivity].
  destruct (outcome_map Drink_short a); [|reflexivity].
  destruct (Z.of_nat (length a0) =? 0)%Z; reflexivity.
Qed.

Lemma get_drink_details_try_reads (st : store) : snd (get_drink_details_try st) = st.
Proof.
  unfold get_drink_details_try. run.
  destruct (Drink_query_all st); [|reflexivity].
  destruct (outcome_map Drink_long a); [|reflexivity].
  destruct (Z.of_nat (length a0) =? 0)%Z; reflexivity.
Qed.

Lemma caught_snd (ran : outcome Response * store) : snd (caught ran) = snd ran.
Proof. destruct ran as [[r|[c|a|n]] st']; reflexivity. Qed.

(** A [try] block that returns, returns a 200. *)
Lemma try_block_returns (req : Request) (body : M Response) (st st' : store)
    (response : Response) :
  try_block req = Some body ->
  body st = (Return response, st') ->
  status response = 200.
Proof.
  unfold try_block.
  destruct (route req); intros Hb; try discriminate; injection Hb as <-;
    unfold get_drinks_try, get_drink_details_try, post_drinks_try,
      update_drink_try, delete_drinks_try;
    run; intros H; repeat case_match; simplify_eq; reflexivity.
Qed.

Lemma status_finalize_return (response : Response) :
  status (finalize_request (Return response)) = status response.
Proof. reflexivity. Qed.

Lemma guarded_shape (req : Request) (st : store) (permission : string)
    (body : M Response) :
  required_permission (route req) = Some permission ->
  try_block req = Some body ->
  response_shape (finalize_request (fst (view req st))).
Proof.
  intros Hp Hb. rewrite (view_guarded req st permission body Hp Hb).
  unfold response_shape.
  destruct (authenticate permission req) as [payload|e] eqn:Hauth.
  - destruct (body st) as [[r|[c|a|n]] st'] eqn:Hrun; cbn [caught fst].
    + left. rewrite status_finalize_return.
      exact (try_block_returns req body st st' r Hb Hrun).
    + right; left. reflexivity.
    + right; right; right; left. reflexivity.
    + right; left. reflexivity.
  - destruct (authenticate_raises permission req e Hauth) as [k ->].
    right; right; right; right. exists k. reflexivity.
Qed.

(** Every response is a 200 of a view, one of the two JSON envelopes, the
    payload of an auth failure, or werkzeug's page for a 401. *)
Lemma response_cases (req : Request) (st : store) :
  response_shape (fst (full_dispatch_request req st)).
Proof.
  rewrite dispatch_view. cbn [fst].
  destruct (route req) eqn:Hroute.
  - rewrite view_unguarded by exact Hroute. unfold response_shape.
    destruct (get_drinks_try st) as [[r|e] st'] eqn:Hrun; cbn [fst].
    + left. rewrite status_finalize_return.
      apply (try_block_returns req get_drinks_try st st');
        [unfold try_block; rewrite Hroute; reflexivity | exact Hrun].
    + right; left. reflexivity.
  - eapply guarded_shape; unfold required_permission, try_block;
      rewrite Hroute; reflexivity.
  - eapply guarded_shape; unfold required_permission, try_block;
      rewrite Hroute; reflexivity.
  - eapply guarded_shape; unfold required_permission, try_block;
      rewrite Hroute; reflexivity.
  - eapply guarded_shape; unfold required_permission, try_block;
      rewrite Hroute; reflexivity.
  - right; right; left. unfold view. rewrite Hroute. reflexivity.
Qed.

(** ** The error envelopes *)

(** C7: every response with status 404 carries exactly the body
    [{success: false, error: 404, message: "resource not found"}] and every
    response with status 422 carries exactly
    [{success: false, error: 422, message: "unprocessable"}], whatever the
    route and whatever condition produced the status. *)
Theorem error_envelopes (req : Request) (st : store) :
  let response := fst (full_dispatch_request req st) in
  (status response = 404 ->
   data response = Json (JObj [("success", JBool false); ("error", JNum 404);
                               ("message", JStr "resource not found")]))
  /\ (status response = 422 ->
      data response = Json (JObj [("success", JBool false); ("error", JNum 422);
                                  ("message", JStr "unprocessable")])).
Proof.
  cbv zeta.
  destruct (response_cases req st) as [H|[H|[H|[H|[k H]]]]].
  - split; intros E; rewrite E in H; discriminate.
  - rewrite H. split; intros E; [discriminate E | reflexivity].
  - rewrite H. split; intros E; [reflexivity | discriminate E].
  - rewrite H. split; intros E; discriminate E.
  - rewrite H. split; intros E; discriminate E.
Qed.

(** ** CORS *)

Lemma after_request_origin (response : Response) :
  allow_origin (after_request response) = Some "*".
Proof.
  unfold allow_origin, after_request. cbn [headers].
  rewrite lookup_insert_ne by discriminate.
  rewrite lookup_insert_ne by discriminate.
  apply lookup_insert_eq.
Qed.

Lemma after_request_methods (response : Response) :
  allow_methods (after_request response)
  = Some ["POST"; "GET"; "PUT"; "DELETE"; "PATCH"; "OPTIONS"].
Proof.
  unfold allow_methods, after_request. cbn [headers].
  rewrite lookup_insert_eq. reflexivity.
Qed.

Lemma after_request_headers (response : Response) :
  allow_headers (after_request response)
  = Some ["Authorization"; "Content-Type"; "true"].
Proof.
  unfold allow_headers, after_request. cbn [headers].
  rewrite lookup_insert_ne by discriminate.
  rewrite lookup_insert_eq. reflexivity.
Qed.

(** C8, amended: every response, on every route and for every outcome,
    errors included, carries CORS headers that permit any origin, permit
    the methods POST, GET, PUT, DELETE, PATCH and OPTIONS, and list three
    allowed request headers: Authorization, Content-Type and [true]. *)
Theorem cors_on_every_response (req : Request) (st : store) :
  let response := fst (full_dispatch_request req st) in
  allow_origin response = Some "*"
  /\ allow_methods response = Some ["POST"; "GET"; "PUT"; "DELETE"; "PATCH"; "OPTIONS"]
  /\ allow_headers response = Some ["Authorization"; "Content-Type"; "true"].
Proof.
  cbv zeta. rewrite dispatch_view. cbn [fst]. unfold finalize_request.
  split; [apply after_request_origin|].
  split; [apply after_request_methods | apply after_request_headers].
Qed.

(** ** The two listings only read *)

(** C10: GET /drinks and GET /drinks-detail never modify the drink store:
    whatever the request carries and whatever the outcome, the store after
    the request is the store before it. *)
Theorem listings_leave_store (auth : option string) (body : outcome json) (st : store) :
  snd (full_dispatch_request (mkRequest GET_drinks auth body) st) = st
  /\ snd (full_dispatch_request (mkRequest GET_drinks_detail auth body) st) = st.
Proof.
  split; rewrite dispatch_view; cbn [snd].
  - rewrite view_unguarded by reflexivity.
    pose proof (get_drinks_try_reads st) as H.
    destruct (get_drinks_try st) as [[r|e] st']; exact H.
  - rewrite (view_guarded _ st "get:drinks-detail" get_drink_details_try)
      by reflexivity.
    destruct (authenticate _ _); [|reflexivity].
    rewrite caught_snd. apply get_drink_details_try_reads.
Qed.

(** ** GET /drinks *)

(** With no row in the store the [abort(404)] of the view is raised inside
    its own [try] and caught by [except(Exception)]. *)
Lemma get_drinks_no_rows (req : Request) (st : store) :
  route req = GET_drinks ->
  Drink_query_all st = Return [] ->
  full_dispatch_request req st = (after_request unprocessable, st).
Proof.
  intros Hroute Hall. rewrite dispatch_view, view_unguarded by exact Hroute.
  unfold get_drinks_try. run. rewrite Hall. reflexivity.
Qed.

Lemma outcome_map_length {A B} (f : A -> outcome B) (xs : list A) (ys : list B) :
  outcome_map f xs = Return ys -> length ys = length xs.
Proof.
  revert ys. induction xs as [|x rest IH]; intros ys H; simpl in H.
  - injection H as <-. reflexivity.
  - destruct (f x) as [y|e]; [|discriminate]. simpl in H.
    destruct (outcome_map f rest) as [ys'|e]; [|discriminate]. simpl in H.
    injection H as <-. simpl. f_equal. apply IH. reflexivity.
Qed.

(** X1: GET /drinks on a store whose listing has at least one row, each of
    them projected short without a raise, is answered with a 200 whose body
    is [{success: true, drinks: [...]}] with one short projection per row in
    the order of the listing, and the store is left as it was. *)
Lemma get_drinks_some_rows (req : Request) (st : store) (row : Drink)
    (more : list Drink) (drinks : list json) :
  route req = GET_drinks ->
  Drink_query_all st = Return (row :: more) ->
  outcome_map Drink_short (row :: more) = Return drinks ->
  full_dispatch_request req st
  = (after_request
       (jsonify (JObj [("success", JBool true); ("drinks", JArr drinks)]) 200), st).
Proof.
  intros Hroute Hall Hshort. rewrite dispatch_view, view_unguarded by exact Hroute.
  unfold get_drinks_try. run. rewrite Hall, Hshort.
  apply outcome_map_length in Hshort. destruct drinks; [discriminate|].
  reflexivity.
Qed.

(** ** DELETE /drinks/<id> *)

Lemma delete_drinks_absent (req : Request) (st : store) (k : Z) (payload : Claims) :
  route req = DELETE_drinks k ->
  authenticate "delete:drinks" req = Return payload ->
  Drink_query_get k st = Return None ->
  full_dispatch_request req st = (after_request unprocessable, st).
Proof.
  intros Hroute Hauth Hget. rewrite dispatch_view.
  rewrite (view_guarded req st "delete:drinks" (delete_drinks_try k))
    by (unfold required_permission, try_block; rewrite Hroute; reflexivity).
  rewrite Hauth. unfold delete_drinks_try. run. rewrite Hget. reflexivity.
Qed.

(** X4: DELETE /drinks/<id> past the guard, on an id the store has and whose
    delete is committed, is answered with a 200 whose body is
    [{success: true, delete: <id>}] with the id of the path, and a later read
    by that id finds nothing. *)
Lemma delete_drinks_present (req : Request) (st st' : store) (k : Z)
    (payload : Claims) (drink : Drink) :
  route req = DELETE_drinks k ->
  authenticate "delete:drinks" req = Return payload ->
  Drink_query_get k st = Return (Some drink) ->
  Drink_delete drink st = (Return tt, st') ->
  full_dispatch_request req st
  = (after_request
       (jsonify (JObj [("success", JBool true); ("delete", JNum k)]) 200), st')
  /\ Drink_query_get k st' = Return None.
Proof.
  intros Hroute Hauth Hget Hdel. split.
  - rewrite dispatch_view.
    rewrite (view_guarded req st "delete:drinks" (delete_drinks_try k))
      by (unfold required_permission, try_block; rewrite Hroute; reflexivity).
    rewrite Hauth. unfold delete_drinks_try. run. rewrite Hget, Hdel. reflexivity.
  - eapply delete_commit; [|exact Hdel]. eapply query_get_id. exact Hget.
Qed.

(** ** The guard *)

Lemma missing_header_rejected (permission : string) (req : Request) :
  authorization req = None ->
  authenticate permission req = Raise (auth_failure AuthHeaderMalformed).
Proof.
  intros H. unfold authenticate, get_token_auth_header. rewrite H. reflexivity.
Qed.

Lemma missing_permission_rejected (permission token : string) (req : Request)
    (payload : Claims) (granted : list string) :
  get_token_auth_header req = Return token ->
  verify_decode_jwt token = inr payload ->
  permissions payload = Some granted ->
  existsb (String.eqb permission) granted = false ->
  authenticate permission req = Raise (auth_failure Unauthorized).
Proof.
  intros Ht Hv Hp Hg. unfold authenticate, check_permissions.
  rewrite Ht. simpl. rewrite Hv, Hp, Hg. reflexivity.
Qed.

(** C3: a POST /drinks request that does not pass the guard (no valid
    Authorization header, or no [post:drinks] permission) gets a 401 and
    leaves the store unchanged: the auth failure is raised by the guard
    itself, before the body of the view runs. *)
Theorem post_drinks_unauthorized (req : Request) (st : store) (e : exception) :
  route req = POST_drinks ->
  authenticate "post:drinks" req = Raise e ->
  view req st = (Raise e, st)
  /\ status (fst (full_dispatch_request req st)) = 401
  /\ snd (full_dispatch_request req st) = st.
Proof.
  intros Hroute Hauth.
  assert (Hview : view req st = (Raise e, st)).
  { rewrite (view_guarded req st "post:drinks" (post_drinks_try req))
      by (unfold required_permission, try_block; rewrite Hroute; reflexivity).
    rewrite Hauth. reflexivity. }
  split; [exact Hview|].
  rewrite dispatch_view, Hview. cbn [fst snd].
  destruct (authenticate_raises _ _ _ Hauth) as [k ->].
  split; reflexivity.
Qed.

(** ** The catch-all *)

(** C5: on each of the five routes a failure of the view that is neither an
    AuthError nor a 404 abort becomes the 422 response; and no request is
    answered with a 500 or with anything but a 200 of a view, the two fixed
    envelopes, the payload of an auth failure or the bare page of a 401. *)
Theorem failures_become_422 (req : Request) (st : store) :
  (forall (body : M Response) (e : exception) (st' : store),
     try_block req = Some body ->
     passes_guard req = true ->
     body st = (Raise e, st') ->
     (forall a, e <> AuthError_raised a) ->
     e <> HTTPException 404 ->
     full_dispatch_request req st = (after_request unprocessable, st'))
  /\ status (fst (full_dispatch_request req st)) <> 500
  /\ (status (fst (full_dispatch_request req st)) <> 200 ->
      fst (full_dispatch_request req st) = after_request unprocessable
      \/ fst (full_dispatch_request req st) = after_request not_found
      \/ fst (full_dispatch_request req st) = after_request (default_page 401)
      \/ exists k, fst (full_dispatch_request req st)
                   = after_request (auth_error (AuthError_of k))).
Proof.
  split; [|split].
  - intros body e st' Hb Hguard Hrun Hauth H404. rewrite dispatch_view.
    destruct (required_permission (route req)) as [permission|] eqn:Hp.
    + rewrite (view_guarded req st permission body Hp Hb).
      unfold passes_guard in Hguard. rewrite Hp in Hguard.
      destruct (authenticate permission req) as [payload|]; [|discriminate].
      rewrite Hrun.
      destruct e as [c|a|n]; [reflexivity | destruct (Hauth a); reflexivity | reflexivity].
    + assert (Hroute : route req = GET_drinks).
      { unfold required_permission, try_block in *.
        destruct (route req); congruence. }
      unfold try_block in Hb. rewrite Hroute in Hb. injection Hb as <-.
      rewrite view_unguarded by exact Hroute. rewrite Hrun. reflexivity.
  - destruct (response_cases req st) as [H|[H|[H|[H|[k H]]]]];
      rewrite H; discriminate.
  - intros Hnot.
    destruct (response_cases req st) as [H|H]; [contradiction | exact H].
Qed.

(** ** POST /drinks *)

(** What the [try] block of [post_drinks] does with a body that is a dict. *)
Lemma post_drinks_try_runs (req : Request) (members : list (string * json))
    (st : store) :
  get_json req = Return (JObj members) ->
  post_drinks_try req st =
    match Drink_insert (mkDrink None (field members "title")
                          (json_dumps (field members "recipe"))) st with
    | (Return created, st') =>
        match Drink_long created with
        | Return long =>
            (Return (jsonify (JObj [("success", JBool true); ("drinks", long)]) 200), st')
        | Raise e => (Raise e, st')
        end
    | (Raise e, st') => (Raise e, st')
    end.
Proof.
  intros Hbody. unfold post_drinks_try. run. rewrite Hbody. cbn [dict_get].
  destruct (Drink_insert _ st) as [[created|e] st']; [|reflexivity].
  destruct (Drink_long created); reflexivity.
Qed.

(** A body that is no dict makes the [try] block raise. *)
Lemma post_drinks_try_no_dict (req : Request) (st : store) :
  (forall members, get_json req <> Return (JObj members)) ->
  exists e, post_drinks_try req st = (Raise e, st).
Proof.
  intros Hbody. unfold post_drinks_try. run.
  destruct (get_json req) as [[| | | | |members]|e]; cbn [dict_get]; eauto.
  destruct (Hbody members). reflexivity.
Qed.

Lemma caught_raise_status (e : exception) (st : store) :
  status (finalize_request (fst (caught (Raise e, st)))) <> 200.
Proof. destruct e as [c|a|n]; discriminate. Qed.

(** C6: a POST /drinks request is answered with a 200 exactly through the
    path where the body is a dict, the drink built from its [title] and
    [recipe] entries (a missing entry being [None]) is inserted, and its long
    projection is taken; the response body is then
    [{success: true, drinks: <long>}] with the one created drink as the
    object itself, not a list.  A missing [title] or [recipe] is not rejected
    by the view: the drink goes to storage as built. *)
Theorem post_drinks_created (req : Request) (st : store) :
  route req = POST_drinks ->
  (status (fst (full_dispatch_request req st)) = 200 ->
   exists members created long,
     get_json req = Return (JObj members)
     /\ Drink_insert (mkDrink None (field members "title")
                        (json_dumps (field members "recipe"))) st
        = (Return created, snd (full_dispatch_request req st))
     /\ Drink_long created = Return long
     /\ fst (full_dispatch_request req st)
        = after_request
            (jsonify (JObj [("success", JBool true); ("drinks", long)]) 200))
  /\ (forall payload members created st' long,
        authenticate "post:drinks" req = Return payload ->
        get_json req = Return (JObj members) ->
        Drink_insert (mkDrink None (field members "title")
                        (json_dumps (field members "recipe"))) st
        = (Return created, st') ->
        Drink_long created = Return long ->
        full_dispatch_request req st
        = (after_request
             (jsonify (JObj [("success", JBool true); ("drinks", long)]) 200), st')).
Proof.
  intros Hroute.
  assert (Hview : view req st =
                  match authenticate "post:drinks" req with
                  | Raise e => (Raise e, st)
                  | Return _ => caught (post_drinks_try req st)
                  end).
  { apply view_guarded; unfold required_permission, try_block;
      rewrite Hroute; reflexivity. }
  rewrite dispatch_view, Hview. cbn [fst snd]. split.
  - destruct (authenticate "post:drinks" req) as [payload|e] eqn:Hauth.
    + destruct (get_json req) as [body|e] eqn:Hbody.
      * destruct body as [| | | | |members];
          try (destruct (post_drinks_try_no_dict req st) as [e He];
               [ intros members; rewrite Hbody; discriminate
               | rewrite He; intros H; destruct (caught_raise_status _ _ H) ]).
        rewrite (post_drinks_try_runs req members st Hbody).
        destruct (Drink_insert _ st) as [[created|e] st'] eqn:Hins.
        -- destruct (Drink_long created) as [long|e] eqn:Hlong.
           ++ intros _. exists members, created, long.
              split; [reflexivity|]. split; [exact Hins|].
              split; [exact Hlong | reflexivity].
           ++ intros H. destruct (caught_raise_status _ _ H).
        -- intros H. destruct (caught_raise_status _ _ H).
      * destruct (post_drinks_try_no_dict req st) as [e' He];
          [ intros members; rewrite Hbody; discriminate
          | rewrite He; intros H; destruct (caught_raise_status _ _ H) ].
    + destruct (authenticate_raises _ _ _ Hauth) as [k ->]. discriminate.
  - intros payload members created st' long Hauth Hbody Hins Hlong.
    rewrite Hauth, (post_drinks_try_runs req members st Hbody), Hins, Hlong.
    reflexivity.
Qed.

(** ** PATCH /drinks/<id> *)

Lemma patched_id (drink : Drink) (members : list (string * json)) :
  Drink_id (patched drink members) = Drink_id drink.
Proof.
  unfold patched.
  destruct (truthy (field members "title")), (truthy (field members "recipe"));
    reflexivity.
Qed.

Lemma patched_title (drink : Drink) (members : list (string * json)) :
  Drink_title (patched drink members)
  = if truthy (field members "title") then field members "title"
    else Drink_title drink.
Proof.
  unfold patched.
  destruct (truthy (field members "title")), (truthy (field members "recipe"));
    reflexivity.
Qed.

Lemma patched_recipe (drink : Drink) (members : list (string * json)) :
  Drink_recipe (patched drink members)
  = if truthy (field members "recipe") then json_dumps (field members "recipe")
    else Drink_recipe drink.
Proof.
  unfold patched.
  destruct (truthy (field members "title")), (truthy (field members "recipe"));
    reflexivity.
Qed.

Lemma patched_nothing (drink : Drink) (members : list (string * json)) :
  truthy (field members "title") = false ->
  truthy (field members "recipe") = false ->
  patched drink members = drink.
Proof. intros Ht Hr. unfold patched. rewrite Ht, Hr. reflexivity. Qed.

(** What the [try] block of [update_drink] does with a body that is a dict,
    on an id the store knows. *)
Lemma update_drink_try_runs (req : Request) (k : Z) (members : list (string * json))
    (drink : Drink) (st : store) :
  get_json req = Return (JObj members) ->
  Drink_query_get k st = Return (Some drink) ->
  update_drink_try req k st =
    match Drink_update (patched drink members) st with
    | (Return _, st') =>
        match Drink_query_all st' with
        | Return rows =>
            match outcome_map Drink_long rows with
            | Return drinks =>
                (Return (jsonify (JObj [("success", JBool true);
                                        ("drinks", JArr drinks)]) 200), st')
            | Raise e => (Raise e, st')
            end
        | Raise e => (Raise e, st')
        end
    | (Raise e, st') => (Raise e, st')
    end.
Proof.
  intros Hbody Hget. unfold update_drink_try, patched. run.
  rewrite Hbody. cbn [dict_get]. rewrite Hget.
  destruct (Drink_update _ st) as [[[]|e] st']; [|reflexivity].
  destruct (Drink_query_all st') as [rows|e]; [|reflexivity].
  destruct (outcome_map Drink_long rows); reflexivity.
Qed.

(** The store after the [try] block of [update_drink]: the commit went
    through and the row is the patched one, or it did not and nothing
    changed; and the block returns only after a commit. *)
Lemma update_drink_try_store (req : Request) (k : Z) (members : list (string * json))
    (drink : Drink) (st : store) :
  get_json req = Return (JObj members) ->
  Drink_query_get k st = Return (Some drink) ->
  (Drink_query_get k (snd (update_drink_try req k st))
   = Return (Some (patched drink members))
   \/ (snd (update_drink_try req k st) = st
       /\ exists e, fst (update_drink_try req k st) = Raise e))
  /\ (forall response, fst (update_drink_try req k st) = Return response ->
      Drink_query_get k (snd (update_drink_try req k st))
      = Return (Some (patched drink members))).
Proof.
  intros Hbody Hget. rewrite (update_drink_try_runs req k members drink st Hbody Hget).
  assert (Hid : Drink_id (patched drink members) = Some k).
  { rewrite patched_id. eapply query_get_id. exact Hget. }
  destruct (Drink_update (patched drink members) st) as [[[]|e] st'] eqn:Hup.
  - pose proof (update_commit _ _ _ _ Hid Hup) as Hstored.
    assert (Hsnd : forall x : outcome Response * store,
               x = match Drink_query_all st' with
                   | Return rows =>
                       match outcome_map Drink_long rows with
                       | Return drinks =>
                           (Return (jsonify (JObj [("success", JBool true);
                                                   ("drinks", JArr drinks)]) 200), st')
                       | Raise e => (Raise e, st')
                       end
                   | Raise e => (Raise e, st')
                   end -> snd x = st').
    { intros x ->. destruct (Drink_query_all st') as [rows|e]; [|reflexivity].
      destruct (outcome_map Drink_long rows); reflexivity. }
    rewrite (Hsnd _ eq_refl). split; [left; exact Hstored | intros _ _; exact Hstored].
  - apply update_rollback in Hup. subst st'. cbn [fst snd].
    split; [right; split; [reflexivity | eauto] | intros response H; discriminate H].
Qed.

Lemma patched_record (drink : Drink) (members : list (string * json)) :
  patched drink members
  = {| Drink_id := Drink_id drink;
       Drink_title := if truthy (field members "title") then field members "title"
                      else Drink_title drink;
       Drink_recipe := if truthy (field members "recipe")
                       then json_dumps (field members "recipe")
                       else Drink_recipe drink |}.
Proof.
  unfold patched, set_title, set_recipe.
  destruct (truthy (field members "title")), (truthy (field members "recipe"));
    destruct drink; reflexivity.
Qed.

(** C4: on a PATCH of an existing id with a dict body, the drink the store
    holds under that id afterwards keeps its title when the supplied title is
    falsy (the empty string, or no [title] entry at all) and keeps its recipe
    when the supplied recipe is falsy (the empty list, or no [recipe] entry);
    and when the request is answered with a 200, a truthy title is the stored
    title and the text of a truthy recipe is the stored recipe.  The view
    writes: the drink it commits is the one found with a truthy title put in
    place of the title and the text of a truthy recipe in place of the
    recipe, and when storage takes that commit and the listing after it goes
    through, the answer is the 200 with all drinks and a read by the id finds
    exactly that drink. *)
Theorem patch_applies_truthy_fields (req : Request) (st : store) (k : Z)
    (payload : Claims) (members : list (string * json)) (drink : Drink) :
  route req = PATCH_drinks k ->
  authenticate "patch:drinks" req = Return payload ->
  get_json req = Return (JObj members) ->
  Drink_query_get k st = Return (Some drink) ->
  let title := field members "title" in
  let recipe := field members "recipe" in
  let response := fst (full_dispatch_request req st) in
  let written :=
    {| Drink_id := Drink_id drink;
       Drink_title := if truthy title then title else Drink_title drink;
       Drink_recipe := if truthy recipe then json_dumps recipe
                       else Drink_recipe drink |} in
  (exists stored,
     Drink_query_get k (snd (full_dispatch_request req st)) = Return (Some stored)
     /\ (truthy title = false -> Drink_title stored = Drink_title drink)
     /\ (truthy recipe = false -> Drink_recipe stored = Drink_recipe drink)
     /\ (status response = 200 -> truthy title = true -> Drink_title stored = title)
     /\ (status response = 200 -> truthy recipe = true ->
         Drink_recipe stored = json_dumps recipe))
  /\ (forall (st1 : store) (all : list Drink) (drinks : list json),
        Drink_update written st = (Return tt, st1) ->
        Drink_query_all st1 = Return all ->
        outcome_map Drink_long all = Return drinks ->
        full_dispatch_request req st
        = (after_request
             (jsonify (JObj [("success", JBool true); ("drinks", JArr drinks)]) 200),
           st1)
        /\ Drink_query_get k st1 = Return (Some written)).
Proof.
  intros Hroute Hauth Hbody Hget. cbv zeta.
  assert (Hview : view req st = caught (update_drink_try req k st)).
  { rewrite (view_guarded req st "patch:drinks" (update_drink_try req k))
      by (unfold required_permission, try_block; rewrite Hroute; reflexivity).
    rewrite Hauth. reflexivity. }
  split.
  - rewrite dispatch_view, Hview. cbn [fst snd]. rewrite caught_snd.
    destruct (update_drink_try_store req k members drink st Hbody Hget)
      as [[Hdone|[Hsame [e He]]] Hret].
    + exists (patched drink members). split; [exact Hdone|].
      rewrite patched_title, patched_recipe.
      repeat split; intros;
        repeat match goal with H : truthy _ = _ |- _ => rewrite H end;
        reflexivity.
    + exists drink. rewrite Hsame. split; [exact Hget|].
      split; [reflexivity|]. split; [reflexivity|].
      destruct (update_drink_try req k st) as [ran st'] eqn:Hrun.
      cbn [fst] in He. subst ran.
      split; intros H; destruct (caught_raise_status _ _ H).
  - intros st1 all drinks Hup Hall Hlong.
    rewrite <- (patched_record drink members) in Hup |- *.
    split.
    + rewrite dispatch_view, Hview.
      rewrite (update_drink_try_runs req k members drink st Hbody Hget).
      rewrite Hup, Hall, Hlong. reflexivity.
    + eapply update_commit; [|exact Hup].
      rewrite patched_id. eapply query_get_id. exact Hget.
Qed.

(** C9: a PATCH of an existing id whose dict body has neither a truthy title
    nor a truthy recipe (the empty object, say) commits the drink as it was
    found; when storage takes that commit and the listing that follows goes
    through, the response is a 200 with [success: true] and all drinks in long
    projection, and the stored drink is the one found, title and recipe
    unchanged. *)
Theorem patch_without_fields (req : Request) (st st1 : store) (k : Z)
    (payload : Claims) (members : list (string * json)) (drink : Drink)
    (all : list Drink) (drinks : list json) :
  route req = PATCH_drinks k ->
  authenticate "patch:drinks" req = Return payload ->
  get_json req = Return (JObj members) ->
  truthy (field members "title") = false ->
  truthy (field members "recipe") = false ->
  Drink_query_get k st = Return (Some drink) ->
  Drink_update drink st = (Return tt, st1) ->
  Drink_query_all st1 = Return all ->
  outcome_map Drink_long all = Return drinks ->
  full_dispatch_request req st
  = (after_request
       (jsonify (JObj [("success", JBool true); ("drinks", JArr drinks)]) 200), st1)
  /\ Drink_query_get k st1 = Return (Some drink).
Proof.
  intros Hroute Hauth Hbody Htitle Hrecipe Hget Hup Hall Hlong. split.
  - rewrite dispatch_view.
    rewrite (view_guarded req st "patch:drinks" (update_drink_try req k))
      by (unfold required_permission, try_block; rewrite Hroute; reflexivity).
    rewrite Hauth, (update_drink_try_runs req k members drink st Hbody Hget).
    rewrite (patched_nothing drink members Htitle Hrecipe), Hup, Hall, Hlong.
    reflexivity.
  - eapply update_commit; [|exact Hup]. eapply query_get_id. exact Hget.
Qed.

End Properties.

(** ** On the catalogue in memory *)

Lemma error_envelopes_witness :
  data (fst (serve (anonymous Unrouted) empty_catalog))
  = Json (JObj [("success", JBool false); ("error", JNum 404);
                ("message", JStr "resource not found")])
  /\ data (fst (serve (anonymous GET_drinks) empty_catalog))
     = Json (JObj [("success", JBool false); ("error", JNum 422);
                   ("message", JStr "unprocessable")]).
Proof.
  split.
  - apply (proj1 (@error_envelopes in_memory example_authority
                    (anonymous Unrouted) empty_catalog)).
    vm_compute. reflexivity.
  - apply (proj2 (@error_envelopes in_memory example_authority
                    (anonymous GET_drinks) empty_catalog)).
    vm_compute. reflexivity.
Defined.

(** C8, as stated, fails: the allowed request headers of a response are not
    exactly Authorization and Content-Type. *)
Lemma allow_headers_not_two :
  allow_headers (fst (serve (anonymous GET_drinks) empty_catalog))
  <> Some ["Authorization"; "Content-Type"].
Proof. vm_compute. discriminate. Qed.

Lemma post_drinks_unauthorized_witness :
  status (fst (serve (anonymous POST_drinks) one_drink)) = 401
  /\ snd (serve (anonymous POST_drinks) one_drink) = one_drink.
Proof.
  apply (@post_drinks_unauthorized in_memory example_authority
           (anonymous POST_drinks) one_drink
           (auth_failure AuthHeaderMalformed)); reflexivity.
Defined.

Lemma failures_become_422_witness :
  serve (post_as_manager [("title", JStr "Water"); ("recipe", water)]) one_drink
  = (after_request unprocessable, one_drink).
Proof.
  apply (proj1 (@failures_become_422 in_memory example_authority
                  (post_as_manager [("title", JStr "Water"); ("recipe", water)])
                  one_drink)
           (@post_drinks_try in_memory
              (post_as_manager [("title", JStr "Water"); ("recipe", water)]))
           (Exception "StorageError") one_drink).
  - reflexivity.
  - reflexivity.
  - vm_compute. reflexivity.
  - discriminate.
  - discriminate.
Defined.

Lemma post_drinks_created_witness :
  serve (post_as_manager [("title", JStr "Tea")]) one_drink
  = (after_request
       (jsonify (JObj [("success", JBool true);
                       ("drinks", JObj [("id", JNum 2); ("title", JStr "Tea");
                                        ("recipe", JNull)])]) 200),
     {| rows := rows one_drink ++ [mkDrink (Some 2) (JStr "Tea") "null"];
        next_id := 3 |}).
Proof.
  apply (proj2 (@post_drinks_created in_memory example_authority
                  (post_as_manager [("title", JStr "Tea")]) one_drink eq_refl)
           manager_claims [("title", JStr "Tea")]
           (mkDrink (Some 2) (JStr "Tea") "null")).
  - reflexivity.
  - reflexivity.
  - vm_compute. reflexivity.
  - vm_compute. reflexivity.
Defined.

Lemma patch_applies_truthy_fields_witness :
  (exists stored,
     catalog_get 1
       (snd (serve (patch_as_manager 1 [("title", JStr ""); ("recipe", JArr [])])
               one_drink))
     = Return (Some stored)
     /\ Drink_title stored = JStr "Water"
     /\ Drink_recipe stored = json_dumps water)
  /\ (exists stored,
        catalog_get 1 (snd (serve (patch_as_manager 1 [("title", JStr "Tea")]) one_drink))
        = Return (Some stored)
        /\ Drink_title stored = JStr "Tea"
        /\ Drink_recipe stored = json_dumps water)
  /\ (serve (patch_as_manager 1 [("title", JStr "Tea"); ("recipe", milk)]) one_drink
      = (after_request
           (jsonify
              (JObj [("success", JBool true);
                     ("drinks",
                      JArr [JObj [("id", JNum 1); ("title", JStr "Tea");
                                  ("recipe", milk)]])]) 200),
         {| rows := [mkDrink (Some 1) (JStr "Tea") (json_dumps milk)]; next_id := 2 |})
      /\ catalog_get 1
           {| rows := [mkDrink (Some 1) (JStr "Tea") (json_dumps milk)]; next_id := 2 |}
         = Return (Some (mkDrink (Some 1) (JStr "Tea") (json_dumps milk)))).
Proof.
  split; [|split].
  - pose proof (@patch_applies_truthy_fields in_memory example_authority
                  (patch_as_manager 1 [("title", JStr ""); ("recipe", JArr [])])
                  one_drink 1 manager_claims
                  [("title", JStr ""); ("recipe", JArr [])] water_row
                  eq_refl eq_refl eq_refl eq_refl) as H.
    cbv zeta in H. destruct H as [[stored [H1 [H2 [H3 _]]]] _].
    exists stored. split; [exact H1|].
    split; [apply H2; reflexivity | apply H3; reflexivity].
  - pose proof (@patch_applies_truthy_fields in_memory example_authority
                  (patch_as_manager 1 [("title", JStr "Tea")])
                  one_drink 1 manager_claims
                  [("title", JStr "Tea")] water_row
                  eq_refl eq_refl eq_refl eq_refl) as H.
    cbv zeta in H. destruct H as [[stored [H1 [_ [H3 [H4 _]]]]] _].
    exists stored. split; [exact H1|].
    split; [apply H4; vm_compute; reflexivity | apply H3; reflexivity].
  - pose proof (@patch_applies_truthy_fields in_memory example_authority
                  (patch_as_manager 1 [("title", JStr "Tea"); ("recipe", milk)])
                  one_drink 1 manager_claims
                  [("title", JStr "Tea"); ("recipe", milk)] water_row
                  eq_refl eq_refl eq_refl eq_refl) as H.
    cbv zeta in H. destruct H as [_ H].
    apply (H {| rows := [mkDrink (Some 1) (JStr "Tea") (json_dumps milk)];
                next_id := 2 |}
             [mkDrink (Some 1) (JStr "Tea") (json_dumps milk)]
             [JObj [("id", JNum 1); ("title", JStr "Tea"); ("recipe", milk)]]);
      vm_compute; reflexivity.
Defined.

Lemma patch_without_fields_witness :
  serve (patch_as_manager 1 []) one_drink
  = (after_request
       (jsonify (JObj [("success", JBool true);
                       ("drinks",
                        JArr [JObj [("id", JNum 1); ("title", JStr "Water");
                                    ("recipe", water)]])]) 200),
     one_drink)
  /\ catalog_get 1 one_drink = Return (Some water_row).
Proof.
  apply (@patch_without_fields in_memory example_authority
           (patch_as_manager 1 []) one_drink one_drink 1 manager_claims []
           water_row [water_row]
           [JObj [("id", JNum 1); ("title", JStr "Water"); ("recipe", water)]]);
    vm_compute; reflexivity.
Defined.

(** C1, at an empty catalogue: GET /drinks answers with the 422 envelope,
    not a 404, and leaves the catalogue as it was. *)
Theorem get_drinks_empty_catalog :
  serve (anonymous GET_drinks) empty_catalog
  = (after_request unprocessable, empty_catalog).
Proof. vm_compute. reflexivity. Qed.

(** C2, at an id no drink has: DELETE /drinks/999999 with the
    [delete:drinks] permission answers with the 422 envelope, not a 404. *)
Theorem delete_drinks_missing_id :
  serve (as_manager (DELETE_drinks 999999) (Raise (HTTPException 400))) empty_catalog
  = (after_request unprocessable, empty_catalog).
Proof. vm_compute. reflexivity. Qed.

(** ** The catalogue at work *)

(** A barista's token does not carry [delete:drinks]: 401, and the row is
    still there. *)
Example barista_cannot_delete :
  let req := {| route := DELETE_drinks 1; authorization := Some "Bearer barista";
                get_json := Raise (HTTPException 400) |} in
  status (fst (serve req one_drink)) = 401 /\ snd (serve req one_drink) = one_drink.
Proof. split; vm_compute; reflexivity. Qed.

(** The public listing leaves the ingredient names out; the detailed one
    keeps them. *)
Example listings_of_one_drink :
  data (fst (serve (anonymous GET_drinks) one_drink))
  = Json (JObj [("success", JBool true);
                ("drinks",
                 JArr [JObj [("id", JNum 1); ("title", JStr "Water");
                             ("recipe",
                              JArr [JObj [("color", JStr "blue");
                                          ("parts", JNum 1)]])]])])
  /\ data (fst (serve (as_manager GET_drinks_detail (Raise (HTTPException 400)))
                  one_drink))
     = Json (JObj [("success", JBool true);
                   ("drinks",
                    JArr [JObj [("id", JNum 1); ("title", JStr "Water");
                                ("recipe", water)]])]).
Proof. split; vm_compute; reflexivity. Qed.

(** Creating Water on an empty catalogue yields the catalogue with that one
    row. *)
Example post_water :
  snd (serve (post_as_manager [("title", JStr "Water"); ("recipe", water)])
         empty_catalog)
  = one_drink.
Proof. vm_compute. reflexivity. Qed.

(** Deleting the one drink: 200, the id echoed, the catalogue empty. *)
Example delete_water :
  serve (as_manager (DELETE_drinks 1) (Raise (HTTPException 400))) one_drink
  = (after_request (jsonify (JObj [("success", JBool true); ("delete", JNum 1)]) 200),
     {| rows := []; next_id := 2 |}).
Proof. vm_compute. reflexivity. Qed.

(** A body that is not a dict has no [.get]: 422. *)
Example patch_with_list_body :
  status (fst (serve (as_manager (PATCH_drinks 1) (Return (JArr []))) one_drink)) = 422.
Proof. vm_compute. reflexivity. Qed.

(** * More of the views *)

Section Further.
Context {repository : DrinkRepository} {authority : TokenAuthority}.

(** ** GET /drinks-detail *)

(** X2: GET /drinks-detail past the guard, on a store whose listing has at
    least one row, each of them projected long without a raise, is answered
    with a 200 whose body is [{success: true, drinks: [...]}] with one long
    projection per row, and the store is left as it was. *)
Theorem get_drink_details_some_rows (req : Request) (st : store) (payload : Claims)
    (row : Drink) (more : list Drink) (drinks : list json) :
  route req = GET_drinks_detail ->
  authenticate "get:drinks-detail" req = Return payload ->
  Drink_query_all st = Return (row :: more) ->
  outcome_map Drink_long (row :: more) = Return drinks ->
  full_dispatch_request req st
  = (after_request
       (jsonify (JObj [("success", JBool true); ("drinks", JArr drinks)]) 200), st).
Proof.
  intros Hroute Hauth Hall Hlong. rewrite dispatch_view.
  rewrite (view_guarded req st "get:drinks-detail" get_drink_details_try)
    by (unfold required_permission, try_block; rewrite Hroute; reflexivity).
  rewrite Hauth. unfold get_drink_details_try. run. rewrite Hall, Hlong.
  apply outcome_map_length in Hlong. destruct drinks; [discriminate|].
  reflexivity.
Qed.

(** X3: GET /drinks-detail past the guard, on a store whose listing is
    empty, is answered with the 422 envelope: the [abort(404)] of the view is
    raised inside its [try] block, is no AuthError, and is caught by
    [except(Exception)].  The store is left as it was. *)
Theorem get_drink_details_no_rows (req : Request) (st : store) (payload : Claims) :
  route req = GET_drinks_detail ->
  authenticate "get:drinks-detail" req = Return payload ->
  Drink_query_all st = Return [] ->
  full_dispatch_request req st = (after_request unprocessable, st).
Proof.
  intros Hroute Hauth Hall. rewrite dispatch_view.
  rewrite (view_guarded req st "get:drinks-detail" get_drink_details_try)
    by (unfold required_permission, try_block; rewrite Hroute; reflexivity).
  rewrite Hauth. unfold get_drink_details_try. run. rewrite Hall. reflexivity.
Qed.

(** ** DELETE /drinks/<id> *)

(** X5: a DELETE /drinks/<id> request that is not answered with a 200 leaves
    the store as it was, whatever made it fail: the guard, an id the store
    does not have, or a delete that raised and was rolled back. *)
Theorem delete_drinks_failure_leaves_store (req : Request) (st : store) (k : Z) :
  route req = DELETE_drinks k ->
  status (fst (full_dispatch_request req st)) <> 200 ->
  snd (full_dispatch_request req st) = st.
Proof.
  intros Hroute. rewrite dispatch_view. cbn [fst snd].
  rewrite (view_guarded req st "delete:drinks" (delete_drinks_try k))
    by (unfold required_permission, try_block; rewrite Hroute; reflexivity).
  destruct (authenticate "delete:drinks" req) as [payload|e]; [|reflexivity].
  rewrite caught_snd. unfold delete_drinks_try. run.
  destruct (Drink_query_get k st) as [[drink|]|e]; try reflexivity.
  destruct (Drink_delete drink st) as [[[]|e] st'] eqn:Hdel.
  - intros H. destruct H. reflexivity.
  - intros _. cbn [snd]. eapply delete_rollback. exact Hdel.
Qed.

(** ** PATCH /drinks/<id> *)

(** X6: PATCH /drinks/<id> past the guard, with a dict body, on an id the
    store does not have, is answered with the 422 envelope (the [abort(404)]
    of the view is caught by its own [except(Exception)]) and the store is
    left as it was. *)
Theorem update_drink_absent (req : Request) (st : store) (k : Z) (payload : Claims)
    (members : list (string * json)) :
  route req = PATCH_drinks k ->
  authenticate "patch:drinks" req = Return payload ->
  get_json req = Return (JObj members) ->
  Drink_query_get k st = Return None ->
  full_dispatch_request req st = (after_request unprocessable, st).
Proof.
  intros Hroute Hauth Hbody Hget. rewrite dispatch_view.
  rewrite (view_guarded req st "patch:drinks" (update_drink_try req k))
    by (unfold required_permission, try_block; rewrite Hroute; reflexivity).
  rewrite Hauth. unfold update_drink_try. run.
  rewrite Hbody. cbn [dict_get]. rewrite Hget. reflexivity.
Qed.

(** X8: PATCH /drinks/<id> past the guard, with a dict body, on an id the
    store has: the view commits the drink it found with the title replaced
    when the supplied one is truthy and the recipe replaced by the dumped
    text when the supplied one is truthy, the id untouched.  When storage
    takes the commit and the listing after it goes through, the response is a
    200 with all drinks of the store after the commit in long projection, and
    a read by the id finds the committed drink. *)
Theorem update_drink_commits_patched (req : Request) (st st1 : store) (k : Z)
    (payload : Claims) (members : list (string * json)) (drink : Drink)
    (all : list Drink) (drinks : list json) :
  route req = PATCH_drinks k ->
  authenticate "patch:drinks" req = Return payload ->
  get_json req = Return (JObj members) ->
  Drink_query_get k st = Return (Some drink) ->
  Drink_update (patched drink members) st = (Return tt, st1) ->
  Drink_query_all st1 = Return all ->
  outcome_map Drink_long all = Return drinks ->
  full_dispatch_request req st
  = (after_request
       (jsonify (JObj [("success", JBool true); ("drinks", JArr drinks)]) 200), st1)
  /\ Drink_query_get k st1 = Return (Some (patched drink members))
  /\ Drink_id (patched drink members) = Some k.
Proof.
  intros Hroute Hauth Hbody Hget Hup Hall Hlong.
  assert (Hid : Drink_id (patched drink members) = Some k).
  { rewrite patched_id. eapply query_get_id. exact Hget. }
  split; [|split; [|exact Hid]].
  - rewrite dispatch_view.
    rewrite (view_guarded req st "patch:drinks" (update_drink_try req k))
      by (unfold required_permission, try_block; rewrite Hroute; reflexivity).
    rewrite Hauth, (update_drink_try_runs req k members drink st Hbody Hget).
    rewrite Hup, Hall, Hlong. reflexivity.
  - eapply update_commit; [exact Hid | exact Hup].
Qed.

(** ** Bodies that are no dict *)

(** X7: POST /drinks and PATCH /drinks/<id> past the guard, with a JSON body
    that is not an object (a list, a string, a number, [null]), are answered
    with the 422 envelope and leave the store as it was: [body.get] raises
    before storage is touched, for PATCH even before the id is looked up. *)
Theorem body_without_get_is_422 (req : Request) (st : store) (body : json) :
  (route req = POST_drinks \/ exists k, route req = PATCH_drinks k) ->
  passes_guard req = true ->
  get_json req = Return body ->
  (forall members, body <> JObj members) ->
  full_dispatch_request req st = (after_request unprocessable, st).
Proof.
  intros Hroute Hguard Hbody Hdict. rewrite dispatch_view.
  unfold passes_guard in Hguard.
  destruct Hroute as [Hroute|[k Hroute]]; rewrite Hroute in Hguard;
    cbn [required_permission] in Hguard.
  - rewrite (view_guarded req st "post:drinks" (post_drinks_try req))
      by (unfold required_permission, try_block; rewrite Hroute; reflexivity).
    destruct (authenticate "post:drinks" req); [|discriminate].
    unfold post_drinks_try. run. rewrite Hbody.
    destruct body as [| | | | |members]; try reflexivity.
    destruct (Hdict members). reflexivity.
  - rewrite (view_guarded req st "patch:drinks" (update_drink_try req k))
      by (unfold required_permission, try_block; rewrite Hroute; reflexivity).
    destruct (authenticate "patch:drinks" req); [|discriminate].
    unfold update_drink_try. run. rewrite Hbody.
    destruct body as [| | | | |members]; try reflexivity.
    destruct (Hdict members). reflexivity.
Qed.

(** ** What the five views can answer *)

(** X9: once a request to one of the five routes is past the guard, the
    response is a 200 of the view, the 422 envelope, or the bare page of a
    401; it is never a 404, although four of the views call [abort(404)]. *)
Theorem no_404_past_the_guard (req : Request) (st : store) :
  route req <> Unrouted ->
  passes_guard req = true ->
  let response := fst (full_dispatch_request req st) in
  status response <> 404
  /\ (status response = 200
      \/ response = after_request unprocessable
      \/ response = after_request (default_page 401)).
Proof.
  intros Hroute Hguard. cbv zeta.
  assert (H : status (fst (full_dispatch_request req st)) = 200
              \/ fst (full_dispatch_request req st) = after_request unprocessable
              \/ fst (full_dispatch_request req st) = after_request (default_page 401)).
  { rewrite dispatch_view. cbn [fst].
    destruct (try_block req) as [body|] eqn:Hb;
      [|unfold try_block in Hb; destruct (route req); congruence].
    unfold passes_guard in Hguard.
    destruct (required_permission (route req)) as [permission|] eqn:Hp.
    - rewrite (view_guarded req st permission body Hp Hb).
      destruct (authenticate permission req) as [payload|]; [|discriminate].
      destruct (body st) as [[r|[c|a|n]] st'] eqn:Hrun; cbn [caught fst].
      + left. rewrite status_finalize_return.
        exact (try_block_returns req body st st' r Hb Hrun).
      + right; left. reflexivity.
      + right; right. reflexivity.
      + right; left. reflexivity.
    - assert (Hget : route req = GET_drinks).
      { unfold required_permission in Hp. destruct (route req); congruence. }
      rewrite view_unguarded by exact Hget.
      destruct (get_drinks_try st) as [[r|e] st'] eqn:Hrun; cbn [fst].
      + left. rewrite status_finalize_return.
        apply (try_block_returns req get_drinks_try st st');
          [unfold try_block; rewrite Hget; reflexivity | exact Hrun].
      + right; left. reflexivity. }
  split; [|exact H].
  destruct H as [H|[H|H]]; rewrite H; discriminate.
Qed.

(** X10: an AuthError raised inside the [try] block of a view does not reach
    the [AuthError] handler: in the four guarded views [except AuthError:
    abort(401)] turns it into a bare 401 page without the error's payload,
    and in [get_drinks] [except(Exception)] turns it into the 422 envelope. *)
Theorem auth_error_inside_view (req : Request) (st st' : store) (body : M Response)
    (a : AuthError) :
  try_block req = Some body ->
  passes_guard req = true ->
  body st = (Raise (AuthError_raised a), st') ->
  full_dispatch_request req st
  = (after_request
       match required_permission (route req) with
       | Some _ => default_page 401
       | None => unprocessable
       end, st').
Proof.
  intros Hb Hguard Hrun. rewrite dispatch_view. unfold passes_guard in Hguard.
  destruct (required_permission (route req)) as [permission|] eqn:Hp.
  - rewrite (view_guarded req st permission body Hp Hb).
    destruct (authenticate permission req); [|discriminate].
    rewrite Hrun. reflexivity.
  - assert (Hget : route req = GET_drinks).
    { unfold required_permission, try_block in *. destruct (route req); congruence. }
    unfold try_block in Hb. rewrite Hget in Hb. injection Hb as <-.
    rewrite view_unguarded by exact Hget. rewrite Hrun. reflexivity.
Qed.

(** ** POST /drinks *)

(** X13: a POST /drinks request that is not answered with a 200 has left the
    store as it was, except on one path: the body was a dict, the insert was
    committed, and the long projection of the created drink raised; the row
    then stays although the response is an error. *)
Theorem post_drinks_failure_store (req : Request) (st : store) :
  route req = POST_drinks ->
  status (fst (full_dispatch_request req st)) <> 200 ->
  snd (full_dispatch_request req st) = st
  \/ exists members created e,
       get_json req = Return (JObj members)
       /\ Drink_insert (mkDrink None (field members "title")
                          (json_dumps (field members "recipe"))) st
          = (Return created, snd (full_dispatch_request req st))
       /\ Drink_long created = Raise e.
Proof.
  intros Hroute. rewrite dispatch_view. cbn [fst snd].
  rewrite (view_guarded req st "post:drinks" (post_drinks_try req))
    by (unfold required_permission, try_block; rewrite Hroute; reflexivity).
  destruct (authenticate "post:drinks" req) as [payload|e]; [|left; reflexivity].
  rewrite caught_snd.
  destruct (get_json req) as [body|e] eqn:Hbody.
  - destruct body as [| | | | |members];
      try (destruct (post_drinks_try_no_dict req st) as [e He];
           [ intros members; rewrite Hbody; discriminate
           | rewrite He; intros _; left; reflexivity ]).
    rewrite (post_drinks_try_runs req members st Hbody).
    destruct (Drink_insert _ st) as [[created|e] st'] eqn:Hins.
    + destruct (Drink_long created) as [long|e] eqn:Hlong.
      * intros H. destruct H. reflexivity.
      * intros _. right. exists members, created, e.
        split; [reflexivity|]. split; [exact Hins | exact Hlong].
    + intros _. left. cbn [snd]. eapply insert_rollback. exact Hins.
  - destruct (post_drinks_try_no_dict req st) as [e' He];
      [ intros members; rewrite Hbody; discriminate
      | rewrite He; intros _; left; reflexivity ].
Qed.

(** ** One request after another *)

(** X14: after a DELETE /drinks/<id> that was answered with a 200, the same
    request sent again is answered with the 422 envelope and changes nothing:
    the id is gone, and the [abort(404)] for it is caught by the view. *)
Theorem delete_drinks_twice (req : Request) (st st1 : store) (k : Z)
    (payload : Claims) (drink : Drink) :
  route req = DELETE_drinks k ->
  authenticate "delete:drinks" req = Return payload ->
  Drink_query_get k st = Return (Some drink) ->
  Drink_delete drink st = (Return tt, st1) ->
  snd (full_dispatch_request req st) = st1
  /\ full_dispatch_request req st1 = (after_request unprocessable, st1).
Proof.
  intros Hroute Hauth Hget Hdel.
  assert (Hview : forall s,
             view req s = caught (delete_drinks_try k s)).
  { intros s.
    rewrite (view_guarded req s "delete:drinks" (delete_drinks_try k))
      by (unfold required_permission, try_block; rewrite Hroute; reflexivity).
    rewrite Hauth. reflexivity. }
  assert (Hgone : Drink_query_get k st1 = Return None).
  { eapply delete_commit; [|exact Hdel]. eapply query_get_id. exact Hget. }
  split.
  - rewrite dispatch_view, Hview. cbn [snd]. unfold delete_drinks_try. run.
    rewrite Hget, Hdel. reflexivity.
  - rewrite dispatch_view, Hview. unfold delete_drinks_try. run.
    rewrite Hgone. reflexivity.
Qed.

(** X15: a PATCH /drinks/<id> sent again with the same dict body, on the
    store an earlier one left, commits the very drink that is stored: the
    conditional assignments applied a second time change nothing.  When
    storage takes the commit and the listing goes through, the response is a
    200 and the stored drink is the same as before. *)
Theorem update_drink_twice (req : Request) (st1 st2 : store) (k : Z)
    (payload : Claims) (members : list (string * json)) (drink : Drink)
    (all : list Drink) (drinks : list json) :
  route req = PATCH_drinks k ->
  authenticate "patch:drinks" req = Return payload ->
  get_json req = Return (JObj members) ->
  Drink_query_get k st1 = Return (Some (patched drink members)) ->
  Drink_update (patched drink members) st1 = (Return tt, st2) ->
  Drink_query_all st2 = Return all ->
  outcome_map Drink_long all = Return drinks ->
  full_dispatch_request req st1
  = (after_request
       (jsonify (JObj [("success", JBool true); ("drinks", JArr drinks)]) 200), st2)
  /\ Drink_query_get k st2 = Return (Some (patched drink members)).
Proof.
  intros Hroute Hauth Hbody Hget Hup Hall Hlong.
  assert (Hsame : patched (patched drink members) members = patched drink members).
  { unfold patched, set_title, set_recipe.
    destruct (truthy (field members "title")), (truthy (field members "recipe"));
      destruct drink; reflexivity. }
  split.
  - rewrite dispatch_view.
    rewrite (view_guarded req st1 "patch:drinks" (update_drink_try req k))
      by (unfold required_permission, try_block; rewrite Hroute; reflexivity).
    rewrite Hauth.
    rewrite (update_drink_try_runs req k members (patched drink members) st1 Hbody Hget).
    rewrite Hsame, Hup, Hall, Hlong. reflexivity.
  - eapply update_commit; [|exact Hup].
    eapply query_get_id. exact Hget.
Qed.

End Further.

(** ** The [after_request] hook *)

(** X11: [after_request] changes nothing but the three CORS headers: the
    status, the body and every other header of the response are kept. *)
Theorem after_request_keeps (response : Response) (name : string) :
  name <> "Access-Control-Allow-Origin" ->
  name <> "Access-Control-Allow-Headers" ->
  name <> "Access-Control-Allow-Methods" ->
  status (after_request response) = status response
  /\ data (after_request response) = data response
  /\ headers (after_request response) !! name = headers response !! name.
Proof.
  intros Ho Hh Hm. split; [reflexivity|]. split; [reflexivity|].
  unfold after_request. cbn [headers].
  rewrite !lookup_insert_ne by congruence. reflexivity.
Qed.

(** X12: running [after_request] on a response that already went through it
    changes nothing: the three headers are assigned, not appended to. *)
Theorem after_request_idempotent (response : Response) :
  after_request (after_request response) = after_request response.
Proof.
  unfold after_request. cbn [status data headers]. f_equal.
  apply map_eq. intros name.
  rewrite !lookup_insert.
  repeat case_decide; try reflexivity; congruence.
Qed.

(** ** The further properties on the catalogue in memory *)

Lemma get_drinks_some_rows_witness :
  serve (anonymous GET_drinks) one_drink
  = (after_request
       (jsonify
          (JObj [("success", JBool true);
                 ("drinks",
                  JArr [JObj [("id", JNum 1); ("title", JStr "Water");
                              ("recipe",
                               JArr [JObj [("color", JStr "blue");
                                           ("parts", JNum 1)]])]])]) 200),
     one_drink).
Proof.
  apply (@get_drinks_some_rows in_memory example_authority
           (anonymous GET_drinks) one_drink water_row []);
    vm_compute; reflexivity.
Defined.

Lemma get_drink_details_some_rows_witness :
  serve (as_manager GET_drinks_detail (Raise (HTTPException 400))) one_drink
  = (after_request
       (jsonify
          (JObj [("success", JBool true);
                 ("drinks",
                  JArr [JObj [("id", JNum 1); ("title", JStr "Water");
                              ("recipe", water)]])]) 200),
     one_drink).
Proof.
  apply (@get_drink_details_some_rows in_memory example_authority
           (as_manager GET_drinks_detail (Raise (HTTPException 400))) one_drink
           manager_claims water_row []);
    vm_compute; reflexivity.
Defined.

Lemma get_drink_details_no_rows_witness :
  serve (as_manager GET_drinks_detail (Raise (HTTPException 400))) empty_catalog
  = (after_request unprocessable, empty_catalog).
Proof.
  apply (@get_drink_details_no_rows in_memory example_authority
           (as_manager GET_drinks_detail (Raise (HTTPException 400))) empty_catalog
           manager_claims);
    reflexivity.
Defined.

Lemma delete_drinks_present_witness :
  serve (as_manager (DELETE_drinks 1) (Raise (HTTPException 400))) one_drink
  = (after_request (jsonify (JObj [("success", JBool true); ("delete", JNum 1)]) 200),
     {| rows := []; next_id := 2 |})
  /\ catalog_get 1 {| rows := []; next_id := 2 |} = Return None.
Proof.
  apply (@delete_drinks_present in_memory example_authority
           (as_manager (DELETE_drinks 1) (Raise (HTTPException 400))) one_drink
           {| rows := []; next_id := 2 |} 1 manager_claims water_row);
    reflexivity.
Defined.

Lemma delete_drinks_failure_leaves_store_witness :
  snd (serve (as_manager (DELETE_drinks 999999) (Raise (HTTPException 400))) one_drink)
  = one_drink.
Proof.
  apply (@delete_drinks_failure_leaves_store in_memory example_authority
           (as_manager (DELETE_drinks 999999) (Raise (HTTPException 400)))
           one_drink 999999).
  - reflexivity.
  - vm_compute. discriminate.
Defined.

Lemma update_drink_absent_witness :
  serve (patch_as_manager 7 [("title", JStr "Tea")]) one_drink
  = (after_request unprocessable, one_drink).
Proof.
  apply (@update_drink_absent in_memory example_authority
           (patch_as_manager 7 [("title", JStr "Tea")]) one_drink 7 manager_claims
           [("title", JStr "Tea")]);
    reflexivity.
Defined.

Lemma body_without_get_is_422_witness :
  serve (as_manager (PATCH_drinks 1) (Return (JArr [JStr "Tea"]))) one_drink
  = (after_request unprocessable, one_drink).
Proof.
  apply (@body_without_get_is_422 in_memory example_authority
           (as_manager (PATCH_drinks 1) (Return (JArr [JStr "Tea"]))) one_drink
           (JArr [JStr "Tea"])).
  - right. exists 1. reflexivity.
  - reflexivity.
  - reflexivity.
  - intros members. discriminate.
Defined.

Lemma update_drink_commits_patched_witness :
  serve (patch_as_manager 1 [("title", JStr "Tea")]) one_drink
  = (after_request
       (jsonify
          (JObj [("success", JBool true);
                 ("drinks",
                  JArr [JObj [("id", JNum 1); ("title", JStr "Tea");
                              ("recipe", water)]])]) 200),
     {| rows := [mkDrink (Some 1) (JStr "Tea") (json_dumps water)]; next_id := 2 |})
  /\ catalog_get 1
       {| rows := [mkDrink (Some 1) (JStr "Tea") (json_dumps water)]; next_id := 2 |}
     = Return (Some (patched water_row [("title", JStr "Tea")]))
  /\ Drink_id (patched water_row [("title", JStr "Tea")]) = Some 1.
Proof.
  apply (@update_drink_commits_patched in_memory example_authority
           (patch_as_manager 1 [("title", JStr "Tea")]) one_drink
           {| rows := [mkDrink (Some 1) (JStr "Tea") (json_dumps water)];
              next_id := 2 |}
           1 manager_claims [("title", JStr "Tea")] water_row
           [mkDrink (Some 1) (JStr "Tea") (json_dumps water)]);
    vm_compute; reflexivity.
Defined.

Lemma no_404_past_the_guard_witness :
  status (fst (serve (as_manager (DELETE_drinks 999999) (Raise (HTTPException 400)))
                 empty_catalog)) <> 404.
Proof.
  apply (@no_404_past_the_guard in_memory example_authority
           (as_manager (DELETE_drinks 999999) (Raise (HTTPException 400)))
           empty_catalog).
  - discriminate.
  - reflexivity.
Defined.

Lemma auth_error_inside_view_witness :
  serve (as_manager POST_drinks (Raise (auth_failure TokenExpired))) one_drink
  = (after_request (default_page 401), one_drink).
Proof.
  apply (@auth_error_inside_view in_memory example_authority
           (as_manager POST_drinks (Raise (auth_failure TokenExpired)))
           one_drink one_drink
           (@post_drinks_try in_memory
              (as_manager POST_drinks (Raise (auth_failure TokenExpired))))
           (AuthError_of TokenExpired));
    reflexivity.
Defined.

Lemma post_drinks_failure_store_witness :
  snd (serve (post_as_manager [("title", JStr "Water"); ("recipe", water)]) one_drink)
  = one_drink
  \/ exists members created e,
       Return (JObj [("title", JStr "Water"); ("recipe", water)])
       = Return (JObj members)
       /\ catalog_insert (mkDrink None (field members "title")
                            (json_dumps (field members "recipe"))) one_drink
          = (Return created,
             snd (serve (post_as_manager [("title", JStr "Water"); ("recipe", water)])
                    one_drink))
       /\ Drink_long created = Raise e.
Proof.
  apply (@post_drinks_failure_store in_memory example_authority
           (post_as_manager [("title", JStr "Water"); ("recipe", water)]) one_drink).
  - reflexivity.
  - vm_compute. discriminate.
Defined.

Lemma delete_drinks_twice_witness :
  snd (serve (as_manager (DELETE_drinks 1) (Raise (HTTPException 400))) one_drink)
  = {| rows := []; next_id := 2 |}
  /\ serve (as_manager (DELETE_drinks 1) (Raise (HTTPException 400)))
       {| rows := []; next_id := 2 |}
     = (after_request unprocessable, {| rows := []; next_id := 2 |}).
Proof.
  apply (@delete_drinks_twice in_memory example_authority
           (as_manager (DELETE_drinks 1) (Raise (HTTPException 400))) one_drink
           {| rows := []; next_id := 2 |} 1 manager_claims water_row);
    reflexivity.
Defined.

Lemma update_drink_twice_witness :
  serve (patch_as_manager 1 [("title", JStr "Tea")])
    {| rows := [patched water_row [("title", JStr "Tea")]]; next_id := 2 |}
  = (after_request
       (jsonify
          (JObj [("success", JBool true);
                 ("drinks",
                  JArr [JObj [("id", JNum 1); ("title", JStr "Tea");
                              ("recipe", water)]])]) 200),
     {| rows := [patched water_row [("title", JStr "Tea")]]; next_id := 2 |})
  /\ catalog_get 1
       {| rows := [patched water_row [("title", JStr "Tea")]]; next_id := 2 |}
     = Return (Some (patched water_row [("title", JStr "Tea")])).
Proof.
  apply (@update_drink_twice in_memory example_authority
           (patch_as_manager 1 [("title", JStr "Tea")])
           {| rows := [patched water_row [("title", JStr "Tea")]]; next_id := 2 |}
           {| rows := [patched water_row [("title", JStr "Tea")]]; next_id := 2 |}
           1 manager_claims [("title", JStr "Tea")] water_row
           [patched water_row [("title", JStr "Tea")]]);
    vm_compute; reflexivity.
Defined.

Lemma after_request_keeps_witness :
  status (after_request unprocessable) = 422
  /\ data (after_request unprocessable) = data unprocessable
  /\ headers (after_request unprocessable) !! "Content-Type" = Some "application/json".
Proof.
  apply (after_request_keeps unprocessable "Content-Type"); discriminate.
Defined.
